(** * ServerGem backend: a shallow embedding of the orchestrator, the code
    analyzer, the health verifier, the Cloud Build/Cloud Run service and
    the WebSocket session gateway, with the properties of its spec. *)

From Stdlib Require Import Ascii String List ZArith Lia Bool.
From stdpp Require Import base gmap strings list.
Import ListNotations.
Open Scope string_scope.
Set Warnings "-register-all".

(* ===================================================================== *)
(** ** Python string primitives over ASCII strings                        *)
(* ===================================================================== *)

Module Py.

(** [pat in s] *)
Fixpoint contains (pat s : string) : bool :=
  if String.prefix pat s then true
  else match s with
       | EmptyString => false
       | String _ s' => contains pat s'
       end.

(** [any(p in s for p in pats)] *)
Definition contains_any (pats : list string) (s : string) : bool :=
  existsb (fun p => contains p s) pats.

(** [c.lower()] on an ASCII character. *)
Definition lower_char (c : ascii) : ascii :=
  let n := nat_of_ascii c in
  if ((65 <=? n) && (n <=? 90))%nat then ascii_of_nat (n + 32)%nat else c.

(** [s.lower()] *)
Fixpoint lower (s : string) : string :=
  match s with
  | EmptyString => EmptyString
  | String c s' => String (lower_char c) (lower s')
  end.

(** [s.replace(old, new)] for a non-empty [old]: left to right, without
    overlaps.  [fuel] bounds the number of characters consumed. *)
Fixpoint replace_aux (fuel : nat) (old new s : string) : string :=
  match fuel with
  | O => s
  | S fuel' =>
      match s with
      | EmptyString => EmptyString
      | String c rest =>
          if String.prefix old s
          then String.append new
                 (replace_aux fuel' old new
                    (substring (String.length old)
                       (String.length s - String.length old) s))
          else String c (replace_aux fuel' old new rest)
      end
  end.

Definition replace (old new s : string) : string :=
  replace_aux (String.length s) old new s.

(** [s.split(sep)] for a one-character separator. *)
Fixpoint split_on (sep : ascii) (s : string) : list string :=
  match s with
  | EmptyString => [EmptyString]
  | String c s' =>
      let rest := split_on sep s' in
      if Ascii.eqb c sep then EmptyString :: rest
      else match rest with
           | h :: t => String c h :: t
           | [] => [String c EmptyString]
           end
  end.

(** [xs[-1]] (Python raises on an empty list; [split] never returns one). *)
Definition last_elem (xs : list string) : string := List.last xs EmptyString.

(** [sep.join(xs)] *)
Fixpoint join (sep : string) (xs : list string) : string :=
  match xs with
  | [] => EmptyString
  | [x] => x
  | x :: xs' => String.append x (String.append sep (join sep xs'))
  end.

(** [c.isspace()] on an ASCII character: tab, line feed, vertical tab,
    form feed, carriage return, the separators 0x1c-0x1f and space. *)
Definition is_space (c : ascii) : bool :=
  let n := nat_of_ascii c in
  ((9 <=? n) && (n <=? 13) || (28 <=? n) && (n <=? 32))%nat.

Fixpoint lstrip (s : string) : string :=
  match s with
  | EmptyString => EmptyString
  | String c s' => if is_space c then lstrip s' else s
  end.

Fixpoint rstrip (s : string) : string :=
  match s with
  | EmptyString => EmptyString
  | String c s' =>
      let r := rstrip s' in
      if String.eqb r "" && is_space c then EmptyString else String c r
  end.

(** [s.strip()] *)
Definition strip (s : string) : string := rstrip (lstrip s).

End Py.

(* ===================================================================== *)
(** ** gcloud_service._create_source_tarball                             *)
(* ===================================================================== *)

Module Tarball.

Definition skip_patterns : list string :=
  [".git"; "__pycache__"; "node_modules"; ".env"; ".venv"; "venv"].

(** One iteration of the loop over [project_path_obj.rglob('*')] for a
    regular file, given [str(relative_path)]: [Some arcname] when the file
    is added with [tar.add]. *)
Definition tar_member (relative_path : string) : option string :=
  if Py.contains_any skip_patterns relative_path then None
  else Some relative_path.

(** The arcnames of the tarball, for the relative paths of the regular
    files yielded by [rglob], in order. *)
Definition _create_source_tarball (files : list string) : list string :=
  List.flat_map (fun p => match tar_member p with
                          | Some a => [a] | None => [] end) files.

End Tarball.

(* ===================================================================== *)
(** ** orchestrator._handle_deploy_to_cloudrun: service-name derivation   *)
(* ===================================================================== *)

Module ServiceName.

(** [repo_url.split('/')[-1].replace('.git', '').replace('_', '-').lower()] *)
Definition repo_name (repo_url : string) : string :=
  Py.lower
    (Py.replace "_" "-"
       (Py.replace ".git" "" (Py.last_elem (Py.split_on "/" repo_url)))).

(** The service name chosen when none is passed: derived from the
    [repo_url] of the project context, else ['servergem-app']. *)
Definition derive_service_name (service_name : option string)
    (ctx_repo_url : option string) : string :=
  match service_name with
  | Some n => if String.eqb n "" then
                match ctx_repo_url with
                | Some u => if String.eqb u "" then "servergem-app" else repo_name u
                | None => "servergem-app"
                end
              else n
  | None => match ctx_repo_url with
            | Some u => if String.eqb u "" then "servergem-app" else repo_name u
            | None => "servergem-app"
            end
  end.



End ServiceName.

(* ===================================================================== *)
(** ** code_analyzer.CodeAnalyzerAgent                                    *)
(* ===================================================================== *)

Module Analyzer.

(** A directory tree below the project root, in [rglob] order. *)
Inductive entry :=
| EFile (name : string)
| EDir (name : string) (children : list entry).

(** The items [rglob('*')] yields below a directory whose own parts are
    [parts]: each item with its [parts] and whether it is a regular file. *)
Fixpoint walk (parts : list string) (e : entry) : list (list string * bool) :=
  match e with
  | EFile n => [((parts ++ [n])%list, true)]
  | EDir n cs =>
      ((parts ++ [n])%list, false) ::
      (fix walk_list (cs : list entry) : list (list string * bool) :=
         match cs with
         | [] => []
         | c :: cs' => (walk (parts ++ [n]) c ++ walk_list cs')%list
         end) cs
  end.

Definition rglob (root_parts : list string) (children : list entry)
    : list (list string * bool) :=
  List.flat_map (walk root_parts) children.

Definition exclude_dirs : list string :=
  ["node_modules"; "venv"; "__pycache__"; ".git";
   "dist"; "build"; "target"; "vendor"].

Definition config_patterns : list string :=
  ["package.json"; "requirements.txt"; "go.mod"; "pom.xml";
   "Gemfile"; "composer.json"; ".env"; "Dockerfile";
   "docker-compose.yml"; "app.yaml"; "cloudbuild.yaml"].

Record file_structure := {
  files : list string;
  directories : list string;
  config_files : list string
}.

Definition str_mem (x : string) (xs : list string) : bool :=
  existsb (String.eqb x) xs.

(** [_scan_directory(path, max_depth=3)]: [root_parts] are the parts of
    [path] itself ([item.parts] of an item starts with them).  The
    [max_depth] argument is taken as in the source and is not read by the
    loop, which follows [rglob('*')] to every depth. *)
Definition _scan_directory (root_parts : list string) (children : list entry)
    (max_depth : nat) : file_structure :=
  let keep := List.filter
    (fun it => negb (existsb (fun ex => str_mem ex (fst it)) exclude_dirs)
               && snd it)
    (rglob root_parts children) in
  let rels := List.map
    (fun it => Py.join "/" (List.skipn (List.length root_parts) (fst it))) keep in
  {| files := rels;
     directories := [];
     config_files := List.map
       (fun it => Py.join "/" (List.skipn (List.length root_parts) (fst it)))
       (List.filter
          (fun it => str_mem (List.last (fst it) "") config_patterns) keep) |}.

(** The analysis record returned to the orchestrator. *)
Record analysis := {
  language : string;
  framework : string;
  entry_point : option string;
  port : Z;
  build_tool : option string;
  recommendations : list string;
  warnings : list string;
  env_vars : list string;
  dockerfile_exists : bool
}.

(** The parts of the project on disk that [analyze_project] and
    [_fallback_analysis] read. *)
Record project := {
  path_exists : bool;
  root_parts : list string;
  tree : list entry;
  (** [_extract_env_vars(project_path)] *)
  env_file_vars : list string;
  (** [(project_path / 'Dockerfile').exists()] *)
  has_dockerfile : bool;
  (** [json.loads(package.json)['dependencies']] keys; [None] when the
      file cannot be read or parsed (the bare [except] keeps going). *)
  package_deps : option (list string)
}.

(** What one call of the model yields, up to [json.loads]. *)
Inductive llm_outcome :=
| LParsed (a : analysis)            (* text present, JSON parsed *)
| LUnparseable (json_error : string) (* text present, json.loads raises *)
| LNoText                            (* no text in the response *)
| LRaise (msg : string) (resource_exhausted : bool).  (* the call raises *)

Inductive analyze_result :=
| RError (msg : string)
| RAnalysis (a : analysis).

Definition fallback_warning : string :=
  "Automated analysis failed - using fallback detection".

(** [_fallback_analysis(project_path, file_structure)] *)
Definition _fallback_analysis (p : project) (fs : file_structure) : analysis :=
  let base := {| language := "unknown"; framework := "unknown";
                 entry_point := None; port := 8080; build_tool := None;
                 recommendations :=
                   ["Unable to fully analyze project - manual configuration may be needed"];
                 warnings := [fallback_warning];
                 env_vars := []; dockerfile_exists := false |} in
  let detected :=
    if str_mem "package.json" (config_files fs) then
      {| language := "nodejs";
         framework :=
           match package_deps p with
           | Some deps => if str_mem "express" deps then "express"
                          else if str_mem "next" deps then "nextjs"
                          else "unknown"
           | None => "unknown"
           end;
         entry_point := None; port := 8080; build_tool := Some "npm";
         recommendations := recommendations base; warnings := warnings base;
         env_vars := []; dockerfile_exists := false |}
    else if str_mem "requirements.txt" (config_files fs) then
      {| language := "python"; framework := "unknown";
         entry_point :=
           List.find (fun f => str_mem f (files fs)) ["app.py"; "main.py"; "manage.py"];
         port := 8080; build_tool := Some "pip";
         recommendations := recommendations base; warnings := warnings base;
         env_vars := []; dockerfile_exists := false |}
    else if str_mem "go.mod" (config_files fs) then
      {| language := "golang"; framework := "unknown";
         entry_point := Some "main.go"; port := 8080; build_tool := Some "go";
         recommendations := recommendations base; warnings := warnings base;
         env_vars := []; dockerfile_exists := false |}
    else base in
  {| language := language detected; framework := framework detected;
     entry_point := entry_point detected; port := port detected;
     build_tool := build_tool detected;
     recommendations := recommendations detected;
     warnings := warnings detected;
     env_vars := env_file_vars p; dockerfile_exists := has_dockerfile p |}.

(** [analysis['env_vars'] = ...; analysis['dockerfile_exists'] = ...] *)
Definition enhance (p : project) (a : analysis) : analysis :=
  {| language := language a; framework := framework a;
     entry_point := entry_point a; port := port a; build_tool := build_tool a;
     recommendations := recommendations a; warnings := warnings a;
     env_vars := env_file_vars p; dockerfile_exists := has_dockerfile p |}.

Definition quota_keywords : list string :=
  ["resource exhausted"; "429"; "quota"; "rate limit"].

(** [analyze_project(project_path)] with the analyzer's [use_vertex_ai] and
    [gemini_api_key] flags, the outcome of the call to the current model
    and the outcome of the call to the backup model (read only on
    failover). *)
Definition analyze_project (p : project) (use_vertex_ai has_api_key : bool)
    (primary backup : llm_outcome) : analyze_result :=
  if negb (path_exists p) then RError "Project path does not exist" else
  let fs := _scan_directory (root_parts p) (tree p) 3 in
  let on_exception (msg : string) (resource_exhausted : bool) :=
    if (resource_exhausted || Py.contains_any quota_keywords (Py.lower msg))
       && use_vertex_ai && has_api_key
    then match backup with
         | LParsed a => RAnalysis (enhance p a)
         | _ => RAnalysis (_fallback_analysis p fs)
         end
    else RAnalysis (_fallback_analysis p fs) in
  match primary with
  | LParsed a => RAnalysis (enhance p a)
  | LNoText => RAnalysis (_fallback_analysis p fs)
  | LUnparseable e => on_exception e false
  | LRaise m re => on_exception m re
  end.

(** The model classified the project: the primary call parsed, or a quota
    failover to the backup parsed. *)
Definition classification_succeeds (use_vertex_ai has_api_key : bool)
    (primary backup : llm_outcome) : bool :=
  let failover_ok (msg : string) (re : bool) :=
    (re || Py.contains_any quota_keywords (Py.lower msg))
    && use_vertex_ai && has_api_key
    && match backup with LParsed _ => true | _ => false end in
  match primary with
  | LParsed _ => true
  | LNoText => false
  | LUnparseable e => failover_ok e false
  | LRaise m re => failover_ok m re
  end.

(** The language the static fallback detects from the top-level
    configuration files. *)
Definition fallback_language (fs : file_structure) : string :=
  if str_mem "package.json" (config_files fs) then "nodejs"
  else if str_mem "requirements.txt" (config_files fs) then "python"
  else if str_mem "go.mod" (config_files fs) then "golang"
  else "unknown".

End Analyzer.

(* ===================================================================== *)
(** ** orchestrator.OrchestratorAgent: model broker and function routing  *)
(* ===================================================================== *)

Module Orchestrator.

(** The two model endpoints: Vertex AI (primary when a project is
    configured) and the Gemini API (the backup reached with the user's
    key). *)
Inductive endpoint := VertexAI | GeminiAPI.

(** A chat session: the endpoint of the model that started it and its
    history (each successful turn appends the message and the reply). *)
Record chat := { chat_ep : endpoint; history : list string }.

(** One entry of [project_context['env_vars']]: [{value, isSecret}]. *)
Record env_entry := { value : string; isSecret : bool }.

(** The keys of [project_context] the claims read; [None] is an absent key.
    [env_vars] keeps the insertion order of the Python dict. *)
Record project_context := {
  project_path : option string;
  repo_url : option string;
  framework : option string;
  ctx_env_vars : option (list (string * env_entry))
}.

(** A function-call argument, in the shapes the declared parameter
    schemas allow: a string, an integer ([limit]) or an object of strings
    ([env_vars]). *)
Inductive arg := AStr (s : string) | AInt (n : Z) | AObj (d : list (string * string)).

(** [part.function_call]: its [name] and [dict(function_call.args)], in
    order. *)
Record function_call := { fc_name : string; fc_args : list (string * arg) }.

(** A model reply: its text and the first function-call part, if any. *)
Record response := { resp_text : string; resp_call : option function_call }.

(** A call to [send_message] returns or raises [Exception(e)]. *)
Inductive outcome := Ok (r : response) | Err (e : string).

Inductive handler := HClone | HDeploy | HListRepos | HGetLogs.

(** Observable effects, in order. *)
Inductive event :=
| Request (ep : endpoint) (hist : list string) (msg : string)
| Sleep (seconds : Z)
| Progress (note : string)
| Invoke (h : handler)                 (* the handler's body starts *)
| AgentRequest (ep : endpoint) (prompt : string)
    (* a sub-agent's [model.generate_content_async(prompt)] *)
| DeployCall (service_name : string) (env_vars : list (string * string)).
    (* [gcloud_service.deploy_to_cloudrun(image, service_name, env_vars=...)] *)

Record state := {
  ctx : project_context;
  use_vertex_ai : bool;
  has_api_key : bool;           (* [bool(self.gemini_api_key)] *)
  model_ep : endpoint;          (* the endpoint of [self.model] *)
  chat_session : option chat;
  clock : nat;                  (* requests issued so far *)
  events : list event
}.

(** A small state monad over [state]. *)
Definition M (A : Type) : Type := state -> A * state.
Definition ret {A} (a : A) : M A := fun s => (a, s).
Definition bind {A B} (c : M A) (k : A -> M B) : M B :=
  fun s => let (a, s') := c s in k a s'.
Notation "'let*' x ':=' c 'in' k" := (bind c (fun x => k))
  (at level 200, x name, c at level 100, k at level 200).
Definition get : M state := fun s => (s, s).
Definition put (s : state) : M unit := fun _ => (tt, s).

Definition with_events (s : state) (evs : list event) : state :=
  {| ctx := ctx s; use_vertex_ai := use_vertex_ai s; has_api_key := has_api_key s;
     model_ep := model_ep s; chat_session := chat_session s; clock := clock s;
     events := evs |}.
Definition with_chat (s : state) (c : option chat) : state :=
  {| ctx := ctx s; use_vertex_ai := use_vertex_ai s; has_api_key := has_api_key s;
     model_ep := model_ep s; chat_session := c; clock := clock s;
     events := events s |}.
Definition with_ctx (s : state) (c : project_context) : state :=
  {| ctx := c; use_vertex_ai := use_vertex_ai s; has_api_key := has_api_key s;
     model_ep := model_ep s; chat_session := chat_session s; clock := clock s;
     events := events s |}.
Definition tick (s : state) : state :=
  {| ctx := ctx s; use_vertex_ai := use_vertex_ai s; has_api_key := has_api_key s;
     model_ep := model_ep s; chat_session := chat_session s; clock := S (clock s);
     events := events s |}.

Definition tell (e : event) : M unit :=
  fun s => (tt, with_events s (events s ++ [e])%list).

Definition nl : string := String (ascii_of_nat 10) EmptyString.

Definition network_keywords : list string :=
  ["connection aborted"; "connection refused"; "timeout";
   "unavailable"; "iocp"; "socket"; "503"; "502"; "504"].

Definition quota_keywords : list string :=
  ["resource exhausted"; "429"; "quota"; "rate limit"].

Definition is_network_error (e : string) : bool :=
  Py.contains_any network_keywords (Py.lower e).
Definition is_quota_error (e : string) : bool :=
  Py.contains_any quota_keywords (Py.lower e).

(** [str.strip()] *)
Definition is_space (c : ascii) : bool :=
  let n := nat_of_ascii c in
  (Nat.eqb n 32 || ((9 <=? n) && (n <=? 13)))%nat.
Fixpoint lstrip (s : string) : string :=
  match s with
  | String c s' => if is_space c then lstrip s' else s
  | EmptyString => EmptyString
  end.
Definition strip (s : string) : string :=
  string_of_list_ascii (rev (list_ascii_of_string
    (lstrip (string_of_list_ascii (rev (list_ascii_of_string (lstrip s))))))).

Definition simple_keywords : list string :=
  ["deploy"; "yes"; "no"; "skip"; "proceed"; "continue"; "ok"; "okay"; "start"; "go"].

Definition is_simple_command (user_message : string) : bool :=
  existsb (fun kw => String.eqb (strip (Py.lower user_message)) kw) simple_keywords.

(** [self.project_context.get('project_path')] is truthy. *)
Definition has_project_path (c : project_context) : bool :=
  match project_path c with
  | Some p => negb (String.eqb p "")
  | None => false
  end.

(** Decimal rendering of a count, as in an f-string. *)
Fixpoint digits_aux (fuel n : nat) (acc : string) : string :=
  match fuel with
  | O => acc
  | S f =>
      let acc' := String (ascii_of_nat (48 + n mod 10)) acc in
      if (n <? 10)%nat then acc' else digits_aux f (n / 10) acc'
  end.
Definition str_of_nat (n : nat) : string := digits_aux (S n) n "".

(** [_build_context_prefix()] *)
Definition _build_context_prefix (c : project_context) : string :=
  match project_path c with
  | None => ""
  | Some pp =>
      let context_parts :=
        (["Project Path: " +:+ pp; "STATE: READY - Use deploy_to_cloudrun"]
         ++ match framework c with
            | Some f => ["Framework: " +:+ f]
            | None => []
            end
         ++ match ctx_env_vars c with
            | Some ((_ :: _) as l) => ["Env: " +:+ str_of_nat (length l) +:+ " vars stored"]
            | _ => []
            end)%list in
      "CTX: " ++ Py.join ", " context_parts
  end.

(** *** The function handlers and their collaborators *)

(** The dicts [security.validate_service_name(name)] and
    [security.validate_env_vars(env_vars)] return, reduced to the keys the
    handler reads. *)
Record name_validation := {
  nv_valid : bool; nv_error : string; nv_sanitized_name : string }.
Record env_validation := {
  env_issues : list string; env_sanitized : list (string * string) }.

(** What the handlers get from collaborators that are not part of this
    source tree ([services.github_service], [services.security],
    [services.docker_service], [services.optimization],
    [services.monitoring]), from the file system, and from the code
    analysis. They are inputs of the model: every property below holds for
    all of them. *)
Record services := {
  (** [github_service.clone_repository(repo_url, branch)]: the
      [local_path] of the working copy, [None] when [success] is false. *)
  clone_repository : string -> string -> option string;
  (** The endpoint of [analysis_service.code_analyzer.model], fixed when
      the orchestrator builds [AnalysisService(gcloud_project, location)]:
      Vertex AI when a Google Cloud project is configured, as for the
      orchestrator's own model. ([DockerExpertAgent] always builds a Vertex
      AI model.) *)
  analyzer_ep : endpoint;
  (** The framework [analyze_project] reports from its model's reply (the
      parsed analysis or the static fallback). *)
  analyzed_framework : outcome -> string;
  (** [framework_key in self.templates] in [generate_dockerfile]. *)
  has_template : string -> bool;
  (** [analysis_result['success']], from the analyzer's reply and the
      Docker expert's reply when one was requested. *)
  analysis_ok : outcome -> option outcome -> bool;
  (** [os.path.exists(project_path)] *)
  os_path_exists : string -> bool;
  (** [bool(self.gcloud_service)] *)
  gcloud_configured : bool;
  validate_service_name : string -> name_validation;
  validate_env_vars : list (string * string) -> env_validation;
  (** The content of the error dict when a step between the validations
      and the Cloud Run call fails (pre-flight checks, Dockerfile
      validation, image build); [None] when they all pass. *)
  pre_deploy_error : option string;
  (** The ['type'] of the dict the deploy handler returns after
      [deploy_to_cloudrun(image, service_name, env_vars=...)]. *)
  deploy_reply_type : string -> list (string * string) -> string
}.

(** [dict(function_call.args).get(key)] for a string and for an object
    argument. *)
Definition arg_lookup (key : string) (args : list (string * arg)) : option arg :=
  option_map snd (List.find (fun kv => String.eqb (fst kv) key) args).
Definition str_arg (key : string) (args : list (string * arg)) : option string :=
  match arg_lookup key args with Some (AStr v) => Some v | _ => None end.
Definition obj_arg (key : string) (args : list (string * arg))
    : option (list (string * string)) :=
  match arg_lookup key args with Some (AObj d) => Some d | _ => None end.

Definition str_mem (x : string) (xs : list string) : bool :=
  existsb (String.eqb x) xs.

(** The qualified name, the keyword parameters and the parameters with no
    default of each handler. *)
Definition handler_qualname (h : handler) : string :=
  match h with
  | HClone => "OrchestratorAgent._handle_clone_and_analyze"
  | HDeploy => "OrchestratorAgent._handle_deploy_to_cloudrun"
  | HListRepos => "OrchestratorAgent._handle_list_repos"
  | HGetLogs => "OrchestratorAgent._handle_get_logs"
  end.
Definition handler_params (h : handler) : list string :=
  match h with
  | HClone => ["repo_url"; "branch"; "progress_notifier"; "progress_callback"]
  | HDeploy => ["project_path"; "service_name"; "env_vars";
                "progress_notifier"; "progress_callback"]
  | HListRepos => ["progress_callback"]
  | HGetLogs => ["service_name"; "limit"; "progress_callback"]
  end.
Definition handler_required (h : handler) : list string :=
  match h with
  | HClone => ["repo_url"]
  | HGetLogs => ["service_name"]
  | _ => []
  end.

(** The [TypeError] raised by
    [handler(progress_notifier=..., progress_callback=..., **args)] before
    the handler's body runs: a keyword given twice, then the first keyword
    that is not a parameter, then a missing parameter with no default. *)
Definition bind_error (h : handler) (args : list (string * arg)) : option string :=
  let q := handler_qualname h in
  let keys := List.map fst args in
  match List.find (fun k => str_mem k ["progress_notifier"; "progress_callback"]) keys with
  | Some k => Some (q ++ "() got multiple values for keyword argument '" ++ k ++ "'")
  | None =>
      match List.find (fun k => negb (str_mem k (handler_params h)))
              ("progress_notifier" :: "progress_callback" :: keys) with
      | Some k => Some (q ++ "() got an unexpected keyword argument '" ++ k ++ "'")
      | None =>
          match List.find (fun p => negb (str_mem p keys)) (handler_required h) with
          | Some p => Some (q ++ "() missing 1 required positional argument: '" ++ p ++ "'")
          | None => None
          end
      end
  end.

(** The [env_vars] of [_handle_deploy_to_cloudrun] after its defaulting
    step: when the argument is missing or empty ([not env_vars]) and the
    context holds a non-empty [env_vars] dict, it becomes
    [{key: val['value'] for key, val in ...items()}]. *)
Definition handler_env_vars (env_vars : option (list (string * string)))
    (c : project_context) : option (list (string * string)) :=
  let missing := match env_vars with None | Some [] => true | _ => false end in
  match ctx_env_vars c with
  | Some ((_ :: _) as entries) =>
      if missing
      then Some (List.map (fun kv => (fst kv, value (snd kv))) entries)
      else env_vars
  | _ => env_vars
  end.

(** How [_handle_deploy_to_cloudrun] goes: it returns a dict before the
    Cloud Run call, or it reaches
    [gcloud_service.deploy_to_cloudrun(image, service_name,
    env_vars=deploy_env, ...)] with [deploy_env = env_vars or {}]. *)
Inductive deploy_step :=
| DReturn (kind content : string)
| DDeploy (service_name : string) (deploy_env : list (string * string)).

(** [bool(s)] for an optional string argument. *)
Definition truthy (o : option string) : bool :=
  match o with Some s => negb (String.eqb s "") | None => false end.

Definition invalid_name_content (error : string) : string :=
  "❌ **Invalid service name**" ++ nl ++ nl ++ error ++ nl ++ nl ++
  "Requirements:" ++ nl ++ "• Lowercase letters, numbers, hyphens only" ++ nl ++
  "• Must start with letter" ++ nl ++ "• Max 63 characters".

(** [_handle_deploy_to_cloudrun(project_path, service_name, env_vars)] up
    to the Cloud Run call, on the project context [c]. *)
Definition _handle_deploy_to_cloudrun (svc : services) (c : project_context)
    (project_path_arg service_name_arg : option string)
    (env_vars_arg : option (list (string * string))) : deploy_step :=
  let project_path :=
    if truthy project_path_arg then project_path_arg
    else match project_path c with
         | Some p => Some (Py.replace "//" "/" (Py.replace "\" "/" p))
         | None => project_path_arg
         end in
  if negb (truthy project_path) then
    DReturn "error" ("❌ **No repository analyzed yet**" ++ nl ++ nl ++
                     "Please provide a GitHub repository URL first.")
  else
  let pp := match project_path with Some p => p | None => "" end in
  if negb (os_path_exists svc pp) then
    DReturn "error" ("❌ **Project path not found**: " ++ pp ++ nl ++ nl ++
                     "The cloned repository may have been cleaned up. " ++
                     "Please clone and analyze the repository again.")
  else
  let service_name := ServiceName.derive_service_name service_name_arg (repo_url c) in
  let env_vars := handler_env_vars env_vars_arg c in
  if negb (gcloud_configured svc) then
    DReturn "error" ("❌ **ServerGem Cloud not configured**" ++ nl ++ nl ++
                     "Please contact support. This is a platform configuration issue.")
  else
  let name_validation := validate_service_name svc service_name in
  if negb (nv_valid name_validation) then
    DReturn "error" (invalid_name_content (nv_error name_validation))
  else
  let service_name := nv_sanitized_name name_validation in
  let env_vars :=
    match env_vars with
    | Some ((_ :: _) as l) => Some (env_sanitized (validate_env_vars svc l))
    | _ => env_vars
    end in
  match pre_deploy_error svc with
  | Some e => DReturn "error" e
  | None => DDeploy service_name (match env_vars with Some l => l | None => [] end)
  end.

(** [self.project_context['project_path'] = project_path;
    self.project_context['repo_url'] = repo_url] after a clone. *)
Definition ctx_after_clone (c : project_context) (pp url : string) : project_context :=
  {| project_path := Some pp; repo_url := Some url;
     framework := framework c; ctx_env_vars := ctx_env_vars c |}.

(** [self.project_context['framework'] = ...] after the analysis. *)
Definition ctx_with_framework (c : project_context) (fw : string) : project_context :=
  {| project_path := project_path c; repo_url := repo_url c;
     framework := Some fw; ctx_env_vars := ctx_env_vars c |}.

(** What a handler call gives [_handle_function_call]: a dict (its
    ['type']) or a raised exception (its [str]). *)
Inductive hresult := HDict (kind : string) | HRaise (e : string).

Section Broker.

(** The replies of the model endpoints, in the order the requests are
    issued: request number [n] gets [oracle n]. *)
Variable oracle : nat -> outcome.
(** The collaborators of the function handlers. *)
Variable svc : services.

(** One request to an endpoint on a given history. *)
Definition request (ep : endpoint) (hist : list string) (msg : string)
    : M outcome :=
  fun s => (oracle (clock s),
            tick (with_events s (events s ++ [Request ep hist msg])%list)).

(** [self.chat_session.send_message(msg)]: a request on the session's
    endpoint and history; a reply extends the history. *)
Definition send_message (msg : string) : M outcome :=
  let* s := get in
  match chat_session s with
  | None => ret (Err "'NoneType' object has no attribute 'send_message'")
  | Some c =>
      let* o := request (chat_ep c) (history c) msg in
      match o with
      | Ok r =>
          let* s' := get in
          let* _ := put (with_chat s'
                 (Some {| chat_ep := chat_ep c;
                          history := (history c ++ [msg; resp_text r])%list |})) in
          ret o
      | Err _ => ret o
      end
  end.

(** The loop of [_retry_with_backoff]: [attempt] counts from 0, [fuel] is
    the number of iterations of [range(max_retries)] left. The delays are
    [base_delay * 2 ** attempt] seconds (the bases used, 1.0 and 2.0, are
    whole numbers). *)
Fixpoint retry_go (func : M outcome) (fuel attempt max_retries : nat)
    (base_delay : Z) : M outcome :=
  match fuel with
  | O => ret (Err "Max retries exceeded for network operation")
  | S fuel' =>
      let* o := func in
      match o with
      | Ok r => ret (Ok r)
      | Err e =>
          if negb (is_network_error e) || Nat.eqb attempt (max_retries - 1)
          then ret (Err e)
          else
            let* _ := tell (Progress "Network issue detected, retrying...") in
            let* _ := tell (Sleep (base_delay * 2 ^ Z.of_nat attempt)) in
            retry_go func fuel' (S attempt) max_retries base_delay
      end
  end.

Definition _retry_with_backoff (func : M outcome) (max_retries : nat)
    (base_delay : Z) : M outcome :=
  retry_go func max_retries 0 max_retries base_delay.

(** [_send_with_fallback(message)] *)
Definition _send_with_fallback (message : string) : M outcome :=
  let* o := _retry_with_backoff (send_message message) 2 1 in
  match o with
  | Ok r => ret (Ok r)
  | Err e =>
      if is_quota_error e then
        let* s := get in
        if use_vertex_ai s && has_api_key s then
          let* _ := tell (Progress "Vertex AI quota exhausted. Switching to backup AI service...") in
          (* [backup_model.start_chat(history=[]).send_message(message)] *)
          let* b := request GeminiAPI [] message in
          match b with
          | Ok r =>
              let* s' := get in
              let* _ := put {| ctx := ctx s'; use_vertex_ai := false;
                          has_api_key := has_api_key s'; model_ep := GeminiAPI;
                          chat_session := Some {| chat_ep := GeminiAPI;
                                                  history := [message; resp_text r] |};
                          clock := clock s'; events := events s' |} in
              let* _ := tell (Progress "Now using Gemini API - deployment continues...") in
              ret (Ok r)
          | Err fe =>
              ret (Err ("Both Vertex AI and Gemini API failed. Gemini API error: " ++ fe))
          end
        else if negb (has_api_key s) then
          ret (Err "Vertex AI quota exhausted. Please add a Gemini API key in Settings to continue.")
        else
          ret (Err "Gemini API quota exhausted. Please wait a few minutes and try again.")
      else ret (Err e)
  end.

(** [handlers.get(function_name)] in [_handle_function_call]. *)
Definition route (function_name : string) : option handler :=
  if String.eqb function_name "clone_and_analyze_repo" then Some HClone
  else if String.eqb function_name "deploy_to_cloudrun" then Some HDeploy
  else if String.eqb function_name "list_user_repositories" then Some HListRepos
  else if String.eqb function_name "get_deployment_logs" then Some HGetLogs
  else None.

(** A call of a sub-agent's model ([CodeAnalyzerAgent], [DockerExpertAgent]):
    it is numbered with the chat requests. *)
Definition agent_request (ep : endpoint) (prompt : string) : M outcome :=
  fun s => (oracle (clock s),
            tick (with_events s (events s ++ [AgentRequest ep prompt])%list)).

(** [_handle_clone_and_analyze(repo_url, branch)]: the clone, the update of
    [project_context], then [analysis_service.analyze_and_generate]:
    [CodeAnalyzerAgent.analyze_project] asks its model, and
    [DockerExpertAgent.generate_dockerfile] asks its own (Vertex AI) model
    when the framework has no template. The [except Exception] of the
    handler and of [analyze_and_generate] turn every failure into a dict. *)
Definition _handle_clone_and_analyze (repo_url branch : string) : M hresult :=
  let* _ := tell (Progress "Cloning repository from GitHub...") in
  match clone_repository svc repo_url branch with
  | None => ret (HDict "error")
  | Some project_path =>
      let* s := get in
      let* _ := put (with_ctx s (ctx_after_clone (ctx s) project_path repo_url)) in
      let* _ := tell (Progress "Analyzing project structure and dependencies...") in
      let* a := agent_request (analyzer_ep svc) ("Analyze the project at " ++ project_path) in
      let fw := analyzed_framework svc a in
      let* d := if has_template svc fw then ret None
                else let* o := agent_request VertexAI
                                 ("Generate a production-optimized Dockerfile for " ++ fw) in
                     ret (Some o) in
      if analysis_ok svc a d then
        let* s' := get in
        let* _ := put (with_ctx s' (ctx_with_framework (ctx s') fw)) in
        ret (HDict "analysis")
      else ret (HDict "error")
  end.

(** The deploy handler on the session's context: the Cloud Run call, when
    reached, is recorded. *)
Definition deploy_handler (args : list (string * arg)) : M hresult :=
  let* s := get in
  match _handle_deploy_to_cloudrun svc (ctx s) (str_arg "project_path" args)
          (str_arg "service_name" args) (obj_arg "env_vars" args) with
  | DReturn kind _ => ret (HDict kind)
  | DDeploy service_name deploy_env =>
      let* _ := tell (DeployCall service_name deploy_env) in
      ret (HDict (deploy_reply_type svc service_name deploy_env))
  end.

(** [_handle_function_call(function_call)]: [handlers.get(name)] is called
    as [handler(progress_notifier=..., progress_callback=..., **args)]; an
    unknown name yields an error dict. [_handle_list_repos] and
    [_handle_get_logs] have no [progress_notifier] parameter, so their
    calls always raise [TypeError]. *)
Definition _handle_function_call (fc : function_call) : M hresult :=
  let args := fc_args fc in
  match route (fc_name fc) with
  | None => ret (HDict "error")
  | Some h =>
      match bind_error h args with
      | Some e => ret (HRaise e)
      | None =>
          let* _ := tell (Invoke h) in
          match h with
          | HClone =>
              _handle_clone_and_analyze
                (match str_arg "repo_url" args with Some u => u | None => "" end)
                (match str_arg "branch" args with Some b => b | None => "main" end)
          | HDeploy => deploy_handler args
          | HListRepos | HGetLogs => ret (HDict "error") (* not reached: [bind_error] *)
          end
      end
  end.

(** The dict [process_message] returns: a text reply, the reply after a
    function call, or an error dict built from [str(e)] of the exception
    its [except Exception] catches. *)
Inductive reply :=
| RMessage (text : string)
| RFunction (name : string) (text : string)
| RError (text : string).

(** [if not self.chat_session: self.chat_session = self.model.start_chat(history=[])] *)
Definition ensure_chat_session : M unit :=
  let* s := get in
  match chat_session s with
  | None => put (with_chat s (Some {| chat_ep := model_ep s; history := [] |}))
  | Some _ => ret tt
  end.

(** The message sent for [user_message]: minimal context for a simple
    command once a project path is known, else the context prefix. *)
Definition enhanced_message (c : project_context) (user_message : string) : string :=
  if is_simple_command user_message && has_project_path c
  then "Ready. User: " ++ user_message
  else let context_prefix := _build_context_prefix c in
       if String.eqb context_prefix "" then user_message
       else context_prefix ++ nl ++ nl ++ "User: " ++ user_message.

(** [self._retry_with_backoff(lambda: self.chat_session.send_message(
    Part.from_function_response(name=..., response=function_result)),
    max_retries=3, base_delay=2.0)] *)
Definition send_function_response (name : string) : M outcome :=
  _retry_with_backoff (send_message ("function_response:" ++ name)) 3 2.

(** [process_message(user_message, session_id)] *)
Definition process_message (user_message : string) : M reply :=
  let* _ := tell (Progress "ServerGem AI is processing your request...") in
  let* _ := ensure_chat_session in
  let* s := get in
  let* o := _send_with_fallback (enhanced_message (ctx s) user_message) in
  match o with
  | Err e => ret (RError e)
  | Ok r =>
      match resp_call r with
      | None => ret (RMessage (resp_text r))
      | Some fc =>
          let* function_result := _handle_function_call fc in
          match function_result with
          | HRaise e => ret (RError e)
          | HDict _ =>
              let* o2 := send_function_response (fc_name fc) in
              match o2 with
              | Ok r2 => ret (RFunction (fc_name fc) (resp_text r2))
              | Err e => ret (RError e)
              end
          end
      end
  end.

(** A session: the user messages processed one after the other. *)
Fixpoint run_session (msgs : list string) : M (list reply) :=
  match msgs with
  | [] => ret []
  | m :: ms =>
      let* r := process_message m in
      let* rs := run_session ms in
      ret (r :: rs)
  end.

End Broker.

(** [run_v2.EnvVar(name=k, value=v)]: a plain-text variable. *)
Record EnvVar := { ev_name : string; ev_value : string }.

(** [container.env] set by [deploy_to_cloudrun] ([if env_vars:]). *)
Definition container_env (env_vars : list (string * string)) : list EnvVar :=
  match env_vars with
  | [] => []
  | _ => List.map (fun kv => {| ev_name := fst kv; ev_value := snd kv |}) env_vars
  end.

End Orchestrator.

(* ===================================================================== *)
(** ** app.websocket_endpoint: session gateway                            *)
(* ===================================================================== *)

Module Gateway.

(** An orchestrator instance: its identity and its [project_context]. *)
Record orchestrator := { orch_id : nat; orch_ctx : Orchestrator.project_context }.

Definition empty_context : Orchestrator.project_context :=
  {| Orchestrator.project_path := None; Orchestrator.repo_url := None;
     Orchestrator.framework := None; Orchestrator.ctx_env_vars := None |}.

(** [d[k] = v] on a dict kept as an insertion-ordered association list. *)
Fixpoint dict_set {V} (k : string) (v : V) (d : list (string * V)) : list (string * V) :=
  match d with
  | [] => [(k, v)]
  | (k', v') :: d' => if String.eqb k k' then (k, v) :: d' else (k', v') :: dict_set k v d'
  end.

(** A transport registered in [active_connections]. *)
Record connection := { ws_id : nat; keep_alive_cancelled : bool }.

Record gateway := {
  active_connections : gmap string connection;
  session_orchestrators : gmap string orchestrator;
  next_id : nat    (* fresh identities for new sockets and orchestrators *)
}.

(** The transport events of one session id. *)
Inductive gw_event :=
| Connect (session_id : string)       (* accepted socket with its init frame *)
| Disconnect (session_id : string)    (* the endpoint's [finally] cleanup *)
| EnvVarsUploaded (session_id : string)
    (variables : list (string * Orchestrator.env_entry)) (* [env_vars_uploaded] frame *)
| CleanupTick.                        (* one pass of [cleanup_stale_sessions] *)

(** Connection set-up: an existing transport is cancelled and replaced;
    the orchestrator bound to the id is reused, else a new one is made. *)
Definition connect (sid : string) (g : gateway) : gateway :=
  let n := next_id g in
  let orchs :=
    match session_orchestrators g !! sid with
    | Some _ => session_orchestrators g
    | None => <[sid := {| orch_id := S n; orch_ctx := empty_context |}]>
                (session_orchestrators g)
    end in
  {| active_connections :=
       <[sid := {| ws_id := n; keep_alive_cancelled := false |}]> (active_connections g);
     session_orchestrators := orchs;
     next_id := S (S n) |}.

(** The [finally] block: only the session-to-transport binding goes. *)
Definition disconnect (sid : string) (g : gateway) : gateway :=
  match active_connections g !! sid with
  | Some _ => {| active_connections := delete sid (active_connections g);
                 session_orchestrators := session_orchestrators g;
                 next_id := next_id g |}
  | None => g
  end.

(** [session_env_vars[var['key']] = {...}] for each variable, then
    [user_orchestrator.project_context['env_vars'] = session_env_vars]. *)
Definition upload_into (variables : list (string * Orchestrator.env_entry))
    (c : Orchestrator.project_context) : Orchestrator.project_context :=
  let session_env_vars :=
    match Orchestrator.ctx_env_vars c with Some l => l | None => [] end in
  {| Orchestrator.project_path := Orchestrator.project_path c;
     Orchestrator.repo_url := Orchestrator.repo_url c;
     Orchestrator.framework := Orchestrator.framework c;
     Orchestrator.ctx_env_vars :=
       Some (fold_left (fun d kv => dict_set (fst kv) (snd kv) d) variables
               session_env_vars) |}.

Definition env_vars_uploaded (sid : string)
    (variables : list (string * Orchestrator.env_entry)) (g : gateway) : gateway :=
  {| active_connections := active_connections g;
     session_orchestrators :=
       alter (fun o => {| orch_id := orch_id o; orch_ctx := upload_into variables (orch_ctx o) |})
         sid (session_orchestrators g);
     next_id := next_id g |}.

(** [cleanup_stale_sessions]: [stale_sessions] stays empty, so nothing is
    deleted. *)
Definition cleanup_tick (g : gateway) : gateway :=
  let stale_sessions : list string := [] in
  {| active_connections := active_connections g;
     session_orchestrators :=
       foldr (fun sid m => delete sid m) (session_orchestrators g) stale_sessions;
     next_id := next_id g |}.

Definition gw_step (g : gateway) (e : gw_event) : gateway :=
  match e with
  | Connect sid => connect sid g
  | Disconnect sid => disconnect sid g
  | EnvVarsUploaded sid vs => env_vars_uploaded sid vs g
  | CleanupTick => cleanup_tick g
  end.

Definition gw_run (g : gateway) (es : list gw_event) : gateway :=
  fold_left gw_step es g.

End Gateway.

(* ===================================================================== *)
(** ** Post-deployment health checks                                      *)
(* ===================================================================== *)

Module Health.

(** What one HTTP GET observes: a final status code (redirects are
    followed), or no response (timeout, connection error). *)
Inductive probe := Status (code : Z) | NoResponse.

(** [HealthCheckResult], reduced to the fields the claims read. *)
Record health_result := { success : bool; status_code : option Z }.

(** [HealthCheckService._perform_health_check(url, expected_status_codes)] *)
Definition _perform_health_check (expected_status_codes : list Z) (p : probe)
    : health_result :=
  match p with
  | Status c => {| success := existsb (Z.eqb c) expected_status_codes;
                   status_code := Some c |}
  | NoResponse => {| success := false; status_code := None |}
  end.

(** The loop [for attempt in range(self.max_retries)]: [probes attempt] is
    what the service answers at that attempt; [last_result] is the last
    failed result. *)
Fixpoint wait_go (probes : nat -> probe) (expected_status_codes : list Z)
    (fuel attempt : nat) (last_result : option health_result) : health_result :=
  match fuel with
  | O =>
      match last_result with
      | Some r => r
      | None => {| success := false; status_code := None |}
      end
  | S fuel' =>
      let result := _perform_health_check expected_status_codes (probes attempt) in
      if success result then result
      else wait_go probes expected_status_codes fuel' (S attempt) (Some result)
  end.

Definition default_status_codes : list Z := [200; 204; 301; 302]%Z.

(** [HealthCheckService(max_retries=...).wait_for_service_ready(url,
    expected_status_codes=...)]; [None] is the default argument. The
    orchestrator calls it with [max_retries=5] and the default codes. *)
Definition wait_for_service_ready (probes : nat -> probe) (max_retries : nat)
    (expected_status_codes : option (list Z)) : health_result :=
  let codes := match expected_status_codes with
               | None => default_status_codes
               | Some l => l
               end in
  wait_go probes codes max_retries 0 None.

(** The dict returned by [GCloudService._verify_deployment_health]. *)
Record verify_result := { healthy : bool; verified_status : option Z }.

Definition endpoints_to_check : list string := ["/"; "/health"; "/api/health"].

(** One pass over [endpoints_to_check]: the first status below 500. *)
Fixpoint probe_endpoints (probes : nat -> string -> probe) (round : nat)
    (eps : list string) : option Z :=
  match eps with
  | [] => None
  | ep :: eps' =>
      match probes round ep with
      | Status c => if (c <? 500)%Z then Some c else probe_endpoints probes round eps'
      | NoResponse => probe_endpoints probes round eps'
      end
  end.

(** The [while time.time() - start_time < max_wait_seconds] loop, one
    pass per round; [rounds] is the number of passes that start within
    the 120 s window. *)
Fixpoint verify_go (probes : nat -> string -> probe) (fuel round : nat) : verify_result :=
  match fuel with
  | O => {| healthy := false; verified_status := None |}
  | S fuel' =>
      match probe_endpoints probes round endpoints_to_check with
      | Some c => {| healthy := true; verified_status := Some c |}
      | None => verify_go probes fuel' (S round)
      end
  end.

Definition _verify_deployment_health (probes : nat -> string -> probe) (rounds : nat)
    : verify_result :=
  verify_go probes rounds 0.

(** The dict [GCloudService.deploy_to_cloudrun] returns once the revision
    is live: the health result only decides whether a warning is logged
    ([if not health_status['healthy']: ... # Non-fatal]). *)
Record deploy_dict := {
  deploy_success : bool;
  deploy_service_name : string;
  deploy_url : string;
  health_warning_logged : bool }.

Definition deploy_to_cloudrun_finish (unique_service_name : string)
    (health_status : verify_result) : deploy_dict :=
  {| deploy_success := true;
     deploy_service_name := unique_service_name;
     deploy_url := String.append "https://"
                     (String.append unique_service_name ".servergem.app");
     health_warning_logged := negb (healthy health_status) |}.

End Health.

(* ===================================================================== *)
(** ** gcloud_service: retry strategy, image build, logs, service name   *)
(* ===================================================================== *)

Module Cloud.

(** What one awaited call of [func] does. *)
Inductive call_result (A : Type) := CReturn (a : A) | CRaise (e : string).
Arguments CReturn {A} a.
Arguments CRaise {A} e.

(** How [RetryStrategy.execute] ends: it returns the call's value or
    raises. *)
Inductive exec_result (A : Type) := XReturn (a : A) | XRaise (e : string).
Arguments XReturn {A} a.
Arguments XRaise {A} e.

(** [raise last_exception] when [last_exception] is still [None]. *)
Definition raise_none : string := "exceptions must derive from BaseException".

(** The outcome of [execute], the number of calls of [func] and the
    delays slept, in order. *)
Record trace (A : Type) := { xres : exec_result A; xcalls : nat; xsleeps : list Z }.
Arguments xres {A} t.
Arguments xcalls {A} t.
Arguments xsleeps {A} t.

(** The loop of [RetryStrategy.execute]: [func attempt] is what the call
    made at that attempt does. *)
Fixpoint execute_go {A} (func : nat -> call_result A) (fuel attempt max_retries : nat)
    (base_delay : Z) (last_exception : option string) : trace A :=
  match fuel with
  | O =>
      {| xres := XRaise (match last_exception with Some e => e | None => raise_none end);
         xcalls := 0; xsleeps := [] |}
  | S fuel' =>
      match func attempt with
      | CReturn a => {| xres := XReturn a; xcalls := 1; xsleeps := [] |}
      | CRaise e =>
          let delay := if (attempt <? max_retries - 1)%nat
                       then [(base_delay * 2 ^ Z.of_nat attempt)%Z] else [] in
          let rest := execute_go func fuel' (S attempt) max_retries base_delay (Some e) in
          {| xres := xres rest; xcalls := S (xcalls rest);
             xsleeps := (delay ++ xsleeps rest)%list |}
      end
  end.

(** [RetryStrategy(max_retries, base_delay).execute(func)] *)
Definition execute {A} (func : nat -> call_result A) (max_retries : nat)
    (base_delay : Z) : trace A :=
  execute_go func max_retries 0 max_retries base_delay None.

(** The dict returned by [_build_image_internal] and [build_image]. *)
Record build_dict := { b_success : bool; b_text : string }.

Definition bullet : string := "• ".

(** [build_image]: [self.retry_strategy = RetryStrategy(max_retries=3)]
    wraps [_build_image_internal], whose [try] covers its whole body and
    whose [except Exception] returns a failure dict: each call returns a
    dict, [internal i] at the [i]-th call. The result is the dict and the
    number of calls of [_build_image_internal]. *)
Definition build_image (internal : nat -> build_dict) : build_dict * nat :=
  let t := execute (fun i => CReturn (internal i)) 3 1 in
  (match xres t with
   | XReturn d => d
   | XRaise e =>
       {| b_success := false;
          b_text := "Build failed after 3 retries: " ++ e ++ Orchestrator.nl ++ Orchestrator.nl ++
                    "Common issues:" ++ Orchestrator.nl ++
                    bullet ++ "Check Dockerfile syntax" ++ Orchestrator.nl ++
                    bullet ++ "Ensure Cloud Build API is enabled" ++ Orchestrator.nl ++
                    bullet ++ "Verify billing is enabled" ++ Orchestrator.nl ++
                    bullet ++ "Check service account permissions" |}
   end, xcalls t).

(** The global names of [services/gcloud_service.py]: those bound by its
    imports ([import os], ..., [from google.api_core import exceptions as
    google_exceptions]) and its three classes. [subprocess] is not a
    builtin either. *)
Definition gcloud_service_globals : list string :=
  ["os"; "json"; "base64"; "tarfile"; "io"; "Dict"; "List"; "Optional";
   "Callable"; "Any"; "Path"; "asyncio"; "logging"; "time"; "datetime"; "Enum";
   "cloudbuild_v1"; "run_v2"; "retry"; "google_exceptions";
   "DeploymentStage"; "RetryStrategy"; "GCloudService"].

(** What [subprocess.run(['gcloud', 'logging', 'read', ...])] would do if
    the name [subprocess] were bound: complete with a return code and its
    output, or raise. *)
Inductive proc_result :=
| ProcDone (returncode : Z) (stdout stderr : string)
| ProcRaise (msg : string).

(** [str(NameError)] for an unbound global. *)
Definition name_error (name : string) : string :=
  "name '" ++ name ++ "' is not defined".

(** [get_service_logs(service_name, limit)]: evaluating [subprocess.run]
    first looks up the global [subprocess]; the [except Exception] turns
    any exception into one log entry. *)
Definition get_service_logs (r : proc_result) : list string :=
  if Orchestrator.str_mem "subprocess" gcloud_service_globals then
    match r with
    | ProcDone returncode stdout stderr =>
        if Z.eqb returncode 0
        then List.filter (fun line => negb (String.eqb (Py.strip line) ""))
               (Py.split_on (ascii_of_nat 10) stdout)
        else ["Failed to fetch logs: " ++ stderr]
    | ProcRaise m => ["Log fetch error: " ++ m]
    end
  else ["Log fetch error: " ++ name_error "subprocess"].

Inductive reply_type := TMessage | TError.

(** The dict returned by [_handle_get_logs]: its type, content and
    [data['logs']]. *)
Record logs_reply := { lr_type : reply_type; lr_content : string; lr_logs : option (list string) }.

(** [xs[-n:]] *)
Definition lastn {A} (n : nat) (xs : list A) : list A := skipn (length xs - n) xs.

(** [OrchestratorAgent._handle_get_logs(service_name)] with no progress
    callback; [gcloud_configured] is [bool(self.gcloud_service)]. *)
Definition _handle_get_logs (gcloud_configured : bool) (service_name : string)
    (r : proc_result) : logs_reply :=
  let nl := Orchestrator.nl in
  if negb gcloud_configured then
    {| lr_type := TError;
       lr_content := "❌ **Google Cloud not configured**" ++ nl ++ nl ++
                     "Please set `GOOGLE_CLOUD_PROJECT` environment variable.";
       lr_logs := None |}
  else
    let logs := get_service_logs r in
    match logs with
    | [] =>
        {| lr_type := TMessage;
           lr_content := "📊 **No logs found for " ++ service_name ++ "**" ++ nl ++ nl ++
                         "Service may not have received traffic yet.";
           lr_logs := None |}
    | _ =>
        let log_output := Py.join nl (lastn 20 logs) in
        {| lr_type := TMessage;
           lr_content :=
             Py.strip (nl ++ "📊 **Logs for " ++ service_name ++ "**" ++ nl ++ nl ++
                       "```" ++ nl ++ log_output ++ nl ++ "```" ++ nl ++ nl ++
                       "Showing last " ++ Orchestrator.str_of_nat (Nat.min 20 (length logs)) ++
                       " entries (total: " ++ Orchestrator.str_of_nat (length logs) ++ ")" ++
                       nl ++ "            ");
           lr_logs := Some logs |}
    end.

(** [unique_service_name] in [deploy_to_cloudrun(image_tag, service_name,
    ..., user_id)]: [user_id] is [None] or the value passed. *)
Definition unique_service_name (service_name : string) (user_id : option string) : string :=
  let n := match user_id with
           | Some u => if String.eqb u "" then service_name else u ++ "-" ++ service_name
           | None => service_name
           end in
  substring 0 63 (Py.replace "_" "-" (Py.lower n)).

End Cloud.

(* ===================================================================== *)
(** ** code_analyzer: environment files and configuration contents      *)
(* ===================================================================== *)

Module AnalyzerIO.

Definition env_files : list string := [".env"; ".env.example"; ".env.sample"].

(** [project_path / env_file]: absent, present but [read_text()] raises
    (the bare [except: continue]), or present with its text. *)
Inductive env_file := Absent | Unreadable | Text (content : string).

(** One line of an env file: the variable name it declares, if any. *)
Definition env_line_var (line0 : string) : option string :=
  let line := Py.strip line0 in
  if negb (String.eqb line "") && negb (String.prefix "#" line) && Py.contains "=" line
  then Some (Py.strip (List.hd "" (Py.split_on "=" line)))
  else None.

Definition file_vars (f : env_file) : list string :=
  match f with
  | Text content =>
      List.flat_map (fun line => match env_line_var line with Some v => [v] | None => [] end)
        (Py.split_on (ascii_of_nat 10) content)
  | _ => []
  end.

(** [_extract_env_vars(project_path)]; [list(set(env_vars))] has no fixed
    order, so the result is the set. *)
Definition _extract_env_vars (files : string -> env_file) : gset string :=
  list_to_set (List.flat_map (fun n => file_vars (files n)) env_files).

(** The [config_contents] dict of [_build_analysis_prompt]: for the first
    10 configuration files, [size f] is [full_path.stat().st_size] ([None]
    when [stat] raises) and [read f] is [full_path.read_text()] ([None]
    when it raises); both failures are skipped by the bare [except]. *)
Definition config_contents (size : string -> option Z) (read : string -> option string)
    (config_files : list string) : list (string * string) :=
  fold_left
    (fun d f =>
       match size f with
       | Some n =>
           if (n <? 50000)%Z then
             match read f with
             | Some t => Gateway.dict_set f t d
             | None => d
             end
           else d
       | None => d
       end)
    (firstn 10 config_files) [].

End AnalyzerIO.

(* ===================================================================== *)
(** ** health_check.verify_url_accessibility                            *)
(* ===================================================================== *)

Module HealthIO.
Import Health.

(** The dict returned by [verify_url_accessibility(url)], with its
    [details]. *)
Record accessibility := {
  accessible : bool;
  acc_status : option Z;
  dns_resolved : bool;
  connection_established : bool;
  http_success : bool
}.

Definition verify_url_accessibility (probes : nat -> probe) (max_retries : nat) : accessibility :=
  let result := wait_for_service_ready probes max_retries None in
  {| accessible := success result;
     acc_status := status_code result;
     dns_resolved := match status_code result with Some _ => true | None => false end;
     connection_established := match status_code result with Some _ => true | None => false end;
     http_success := success result |}.

End HealthIO.

(* ===================================================================== *)
(** ** app.safe_send_json and app.broadcast_to_session                   *)
(* ===================================================================== *)

Module Ws.

(** [websocket.client_state.name] *)
Inductive client_state := CONNECTING | CONNECTED | DISCONNECTED.

(** What [await websocket.send_json(data)] does. *)
Inductive send_outcome :=
| SendOk
| SendRuntimeError (msg : string)
| SendError (msg : string).

(** The client state of each socket in [active_connections], the number of
    [send_json] calls made so far and the delays slept, in milliseconds. *)
Record ws := { conns : gmap string client_state; sent : nat; slept_ms : list Z }.

(** [safe_send_json(session_id, data)]: [oracle n] is what the [n]-th call
    of [send_json] does. *)
Definition safe_send_json (oracle : nat -> send_outcome) (session_id : string) (w : ws)
    : bool * ws :=
  match conns w !! session_id with
  | None => (false, w)
  | Some CONNECTED =>
      let w' := {| conns := conns w; sent := S (sent w); slept_ms := slept_ms w |} in
      match oracle (sent w) with
      | SendOk => (true, w')
      | SendRuntimeError m =>
          if Py.contains "close message has been sent" m
          then (false, {| conns := delete session_id (conns w); sent := S (sent w);
                          slept_ms := slept_ms w |})
          else (false, w')
      | SendError _ => (false, w')
      end
  | Some _ => (false, w)
  end.

(** The loop of [broadcast_to_session] ([max_retries = 3], 0.5 s apart). *)
Fixpoint broadcast_go (oracle : nat -> send_outcome) (session_id : string)
    (fuel attempt max_retries : nat) (w : ws) : bool * ws :=
  match fuel with
  | O => (false, w)
  | S fuel' =>
      let (ok, w1) := safe_send_json oracle session_id w in
      if ok then (true, w1)
      else
        let w2 := if (attempt <? max_retries - 1)%nat
                  then {| conns := conns w1; sent := sent w1;
                          slept_ms := (slept_ms w1 ++ [500%Z])%list |}
                  else w1 in
        broadcast_go oracle session_id fuel' (S attempt) max_retries w2
  end.

Definition broadcast_to_session (oracle : nat -> send_outcome) (session_id : string) (w : ws)
    : bool * ws :=
  broadcast_go oracle session_id 3 0 3 w.

End Ws.

(* ===================================================================== *)
(** ** Dict lookup                                                       *)
(* ===================================================================== *)

Module Dict.


End Dict.

Module AnalyzerExamples.
Import Analyzer.

Definition python_project : project :=
  {| path_exists := true; root_parts := ["/"; "tmp"; "repo"];
     tree := [EFile "requirements.txt"; EFile "app.py"];
     env_file_vars := []; has_dockerfile := false; package_deps := None |}.

Definition deep_tree : list entry :=
  [EDir "a" [EDir "b" [EDir "c" [EDir "d" [EFile "deep.py"]]]]].

End AnalyzerExamples.

Module DeployExamples.
Import Orchestrator.

(** The context entries with their [isSecret] flags reset by [flags]. *)
Definition with_secret_flags (flags : string -> bool)
    (entries : list (string * env_entry)) : list (string * env_entry) :=
  List.map (fun kv => (fst kv, {| value := value (snd kv); isSecret := flags (fst kv) |}))
    entries.

End DeployExamples.

Module GatewayExamples.
Import Gateway.

Definition gw0 : gateway :=
  {| active_connections := {[ "s1" := {| ws_id := 0; keep_alive_cancelled := false |} ]};
     session_orchestrators :=
       {[ "s1" := {| orch_id := 1;
                     orch_ctx := {| Orchestrator.project_path := Some "/tmp/repo";
                                    Orchestrator.repo_url := None;
                                    Orchestrator.framework := None;
                                    Orchestrator.ctx_env_vars := None |} |} ]};
     next_id := 2 |}.

End GatewayExamples.

Module BrokerObs.
Import Orchestrator.

(** Every step only appends to the event log. *)
Definition grows {A} (c : M A) : Prop :=
  forall s, exists new, events (snd (c s)) = (events s ++ new)%list.

(** The model broker after a failover: the backup endpoint everywhere. *)
Definition backup_mode (s : state) : Prop :=
  use_vertex_ai s = false /\ model_ep s = GeminiAPI /\
  (forall c, chat_session s = Some c -> chat_ep c = GeminiAPI).

Definition not_primary (e : event) : Prop :=
  match e with
  | Request VertexAI _ _ => False
  | _ => True
  end.

(** [c] run from a backup-mode state stays in backup mode and issues no
    request to the primary endpoint. *)
Definition good_at {A} (c : M A) (s : state) : Prop :=
  backup_mode (snd (c s)) /\
  exists new, events (snd (c s)) = (events s ++ new)%list /\ Forall not_primary new.

Definition good {A} (c : M A) : Prop :=
  forall s, backup_mode s -> good_at c s.

(** [c] leaves the endpoint flags unchanged. *)
Definition keeps_flags {A} (c : M A) : Prop :=
  forall s, use_vertex_ai (snd (c s)) = use_vertex_ai s /\
            has_api_key (snd (c s)) = has_api_key s.

(** The requests and the delays in an event log. *)
Definition is_request (e : event) : bool :=
  match e with Request _ _ _ => true | _ => false end.

Definition sleeps (evs : list event) : list Z :=
  List.flat_map (fun e => match e with Sleep d => [d] | _ => [] end) evs.

Definition request_count (evs : list event) : nat :=
  List.length (List.filter is_request evs).

End BrokerObs.

Module StrObs.

Definition neq_char (sep : ascii) (c : ascii) : bool := negb (Ascii.eqb c sep).

(** The characters allowed in a variable name of the env file round trip:
    no whitespace (so no line break) and no [=]. *)
Definition key_char (c : ascii) : bool :=
  negb (Py.is_space c) && negb (Ascii.eqb c "=").

(** Every character of [s] satisfies [P]: [all(P(c) for c in s)]. *)
Definition chars_all (P : ascii -> bool) (s : string) : bool :=
  forallb P (list_ascii_of_string s).

End StrObs.

Module AnalyzerObs.

(** File [f] of the configuration list qualifies for the prompt with text
    [t]: its size is read and below 50000 bytes and its text is [t]. *)
Definition cc_good (size : string -> option Z) (read : string -> option string)
    (f t : string) : Prop :=
  exists n, size f = Some n /\ (n < 50000)%Z /\ read f = Some t.

End AnalyzerObs.

Module WsObs.
Import Ws.

(** A send outcome that does not report a closing socket. *)
Definition benign (o : send_outcome) : Prop :=
  match o with
  | SendRuntimeError m => Py.contains "close message has been sent" m = false
  | _ => True
  end.

Definition is_ok (o : send_outcome) : bool :=
  match o with SendOk => true | _ => false end.

End WsObs.

Module BrokerExamples.
Import Orchestrator.

(** A session whose context already holds the working copy of a cloned
    repository, on the primary endpoint with no chat yet. *)
Definition cloned_ctx : project_context :=
  {| project_path := Some "/tmp/servergem_repo"; repo_url := Some "https://github.com/u/app.git";
     framework := Some "flask"; ctx_env_vars := None |}.

Definition s_cloned : state :=
  {| ctx := cloned_ctx; use_vertex_ai := true; has_api_key := true;
     model_ep := VertexAI; chat_session := None; clock := 0; events := [] |}.

(** Collaborators that all succeed: the clone lands in
    [/tmp/servergem_app], the analyzer (on Vertex AI) finds Flask, which
    has a Dockerfile template, and the validations keep their inputs. *)
Definition svc_ok : services :=
  {| clone_repository := fun _ _ => Some "/tmp/servergem_app";
     analyzer_ep := VertexAI;
     analyzed_framework := fun _ => "flask";
     has_template := fun _ => true;
     analysis_ok := fun _ _ => true;
     os_path_exists := fun _ => true;
     gcloud_configured := true;
     validate_service_name := fun n =>
       {| nv_valid := true; nv_error := ""; nv_sanitized_name := n |};
     validate_env_vars := fun l => {| env_issues := []; env_sanitized := l |};
     pre_deploy_error := None;
     deploy_reply_type := fun _ _ => "deployment_complete" |}.

(** The model asks for [clone_and_analyze_repo] again, then answers. *)
Definition clone_call : function_call :=
  {| fc_name := "clone_and_analyze_repo";
     fc_args := [("repo_url", AStr "https://github.com/u/app.git")] |}.
Definition clone_reply : response :=
  {| resp_text := "Cloning"; resp_call := Some clone_call |}.

(** A primary endpoint out of quota, a backup that answers. *)
Definition s_vertex : state :=
  {| ctx := cloned_ctx; use_vertex_ai := true; has_api_key := true;
     model_ep := VertexAI; chat_session := Some {| chat_ep := VertexAI; history := [] |};
     clock := 0; events := [] |}.
Definition or_quota (n : nat) : outcome :=
  match n with
  | O => Err "429 Resource exhausted"
  | _ => Ok {| resp_text := "hi"; resp_call := None |}
  end.
Definition failover_result : outcome * state :=
  _send_with_fallback or_quota "deploy my app" s_vertex.

(** An endpoint that times out on every request. *)
Definition or_timeout (_ : nat) : outcome := Err "Read timeout (503)".

(** A primary endpoint out of quota on the first message; after the
    failover the model asks for [clone_and_analyze_repo] on the next one. *)
Definition or_quota_then_clone (n : nat) : outcome :=
  match n with
  | O => Err "429 Resource exhausted"
  | 2 => Ok clone_reply
  | _ => Ok {| resp_text := "ok"; resp_call := None |}
  end.
Definition after_failover : state :=
  snd (process_message or_quota_then_clone svc_ok "hello" s_vertex).
Definition after_clone_request : state :=
  snd (process_message or_quota_then_clone svc_ok "analyze it again" after_failover).

(** The model asks for the deployment logs. *)
Definition logs_reply : response :=
  {| resp_text := "";
     resp_call := Some {| fc_name := "get_deployment_logs";
                          fc_args := [("service_name", AStr "app")] |} |}.
Definition or_logs (_ : nat) : outcome := Ok logs_reply.

End BrokerExamples.

(* ===================================================================== *)
(** * Properties                                                          *)
(* ===================================================================== *)

(** ** Source tarball *)

Lemma in_create_source_tarball (files : list string) (p : string) :
  In p (Tarball._create_source_tarball files) <->
  In p files /\ Py.contains_any Tarball.skip_patterns p = false.
Proof.
  unfold Tarball._create_source_tarball, Tarball.tar_member.
  rewrite in_flat_map. split.
  - intros [q [Hq Hin]].
    destruct (Py.contains_any Tarball.skip_patterns q) eqn:E;
      simpl in Hin; [contradiction|].
    destruct Hin as [<-|[]]. auto.
  - intros [Hin Hc]. exists p. rewrite Hc. simpl. auto.
Qed.

(** C9: the uploaded source tarball holds exactly the files whose relative
    path contains none of ['.git'], ['__pycache__'], ['node_modules'],
    ['.env'], ['.venv'], ['venv'] as a substring anywhere; in particular
    ['config.envelope.js'] (which contains ['.env']) is never uploaded. *)
Theorem tarball_skips_substring_matches :
  (forall (files : list string) (p : string),
      In p (Tarball._create_source_tarball files) <->
      In p files /\
      Forall (fun pat => Py.contains pat p = false) Tarball.skip_patterns) /\
  (forall files : list string,
      ~ In "config.envelope.js" (Tarball._create_source_tarball files)).
Proof.
  split.
  - intros files p. rewrite in_create_source_tarball.
    unfold Py.contains_any.
    split; intros [Hin H]; split; auto.
    + apply List.Forall_forall. intros x Hx.
      destruct (Py.contains x p) eqn:E; [|reflexivity].
      exfalso. assert (existsb (fun pat => Py.contains pat p) Tarball.skip_patterns = true)
        by (apply existsb_exists; exists x; split; [exact Hx | exact E]). congruence.
    + destruct (existsb _ _) eqn:E; [|reflexivity].
      apply existsb_exists in E as [x [Hx Hc]].
      rewrite List.Forall_forall in H. rewrite H in Hc; auto.
  - intros files Hin. apply in_create_source_tarball in Hin as [_ Hc].
    vm_compute in Hc. discriminate.
Qed.

(** ** Service-name derivation *)

Lemma prefix_cons (a b : ascii) (s1 s2 : string) :
  String.prefix (String a s1) (String b s2) =
  if ascii_dec a b then String.prefix s1 s2 else false.
Proof. reflexivity. Qed.

Lemma contains_cons (pat : string) (c : ascii) (s : string) :
  Py.contains pat (String c s) =
  if String.prefix pat (String c s) then true else Py.contains pat s.
Proof. reflexivity. Qed.

Lemma replace_aux_cons (fuel : nat) (old new : string) (c : ascii) (s : string) :
  Py.replace_aux (S fuel) old new (String c s) =
  if String.prefix old (String c s)
  then String.append new
         (Py.replace_aux fuel old new
            (substring (String.length old)
               (String.length (String c s) - String.length old) (String c s)))
  else String c (Py.replace_aux fuel old new s).
Proof. reflexivity. Qed.

Lemma append_cons (c : ascii) (s t : string) :
  String.append (String c s) t = String c (String.append s t).
Proof. reflexivity. Qed.



Lemma split_on_empty_last (s : string) :
  Py.last_elem (Py.split_on "/" s) <> "" -> s <> "".
Proof. intros H ->. apply H. reflexivity. Qed.




(** ** Code analyzer *)

Section AnalyzerProofs.
Import Analyzer AnalyzerExamples.

Lemma fallback_analysis_shape (p : project) (fs : file_structure) :
  In fallback_warning (warnings (_fallback_analysis p fs)) /\
  language (_fallback_analysis p fs) = fallback_language fs.
Proof.
  unfold _fallback_analysis, fallback_language.
  destruct (str_mem "package.json" (config_files fs));
    [|destruct (str_mem "requirements.txt" (config_files fs));
      [|destruct (str_mem "go.mod" (config_files fs))]];
    simpl; auto.
Qed.

(** C5 (amended): [analyze_project] never raises. On a missing project
    path it returns the error record ["Project path does not exist"]. On an
    existing path, whenever the model does not classify the project (no
    text, unparseable output, or a raised error, with no successful quota
    failover), it returns the static fallback record; that record carries
    the fallback warning, and its language is ["unknown"] unless a
    top-level [package.json], [requirements.txt] or [go.mod] makes it
    ["nodejs"], ["python"] or ["golang"]. *)
Theorem analyze_project_static_fallback (p : project)
    (use_vertex_ai has_api_key : bool) (primary backup : llm_outcome) :
  (path_exists p = false ->
   analyze_project p use_vertex_ai has_api_key primary backup
     = RError "Project path does not exist") /\
  (path_exists p = true ->
   classification_succeeds use_vertex_ai has_api_key primary backup = false ->
   let fs := _scan_directory (root_parts p) (tree p) 3 in
   analyze_project p use_vertex_ai has_api_key primary backup
     = RAnalysis (_fallback_analysis p fs) /\
   In fallback_warning (warnings (_fallback_analysis p fs)) /\
   language (_fallback_analysis p fs) = fallback_language fs).
Proof.
  split.
  - intros Hn. unfold analyze_project. rewrite Hn. reflexivity.
  - intros Hex Hfail fs. split; [|apply fallback_analysis_shape].
    unfold analyze_project, classification_succeeds in *. rewrite Hex.
    cbv beta iota zeta delta [negb] in Hfail |- *.
    destruct primary as [a|e| |m re]; try discriminate; try reflexivity;
      destruct backup;
      first
        [ rewrite andb_true_r in Hfail; rewrite Hfail; reflexivity
        | match goal with
          | |- context [if ?c then _ else _] => destruct c; reflexivity
          end ].
Qed.

Lemma analyze_project_static_fallback_witness :
  path_exists python_project = true /\
  classification_succeeds true false (LRaise "boom" false) LNoText = false /\
  analyze_project python_project true false (LRaise "boom" false) LNoText
    = RAnalysis (_fallback_analysis python_project
                   (_scan_directory (root_parts python_project)
                      (tree python_project) 3)).
Proof.
  split; [reflexivity|]. split; [reflexivity|].
  destruct (analyze_project_static_fallback python_project true false
              (LRaise "boom" false) LNoText) as [_ H].
  apply H; reflexivity.
Defined.

(** C5 (as stated) fails: when the model call raises on a project with a
    top-level [requirements.txt], the record returned has language
    ["python"], not ["unknown"]. *)
Lemma analyze_project_fallback_not_unknown :
  classification_succeeds true false (LRaise "boom" false) LNoText = false /\
  exists a, analyze_project python_project true false (LRaise "boom" false) LNoText
              = RAnalysis a /\ language a = "python" /\ language a <> "unknown".
Proof.
  split; [reflexivity|]. eexists. split; [vm_compute; reflexivity|].
  split; [reflexivity|]. discriminate.
Qed.


(** C6: [_scan_directory] with [max_depth = 3] still collects a file four
    directory levels down: the depth bound is never applied. *)
Theorem scan_directory_ignores_depth_bound :
  (_scan_directory ["/"; "tmp"; "repo"] deep_tree 3)
  = {| files := ["a/b/c/d/deep.py"]; directories := []; config_files := [] |}.
Proof. vm_compute. reflexivity. Qed.

End AnalyzerProofs.

(** ** Deploy environment variables *)

Section DeployEnv.
Import Orchestrator DeployExamples.


Lemma handler_env_vars_flags (pp ru fw : option string)
    (entries : list (string * env_entry)) (flags : string -> bool) :
  handler_env_vars None {| project_path := pp; repo_url := ru; framework := fw;
                           ctx_env_vars := Some (with_secret_flags flags entries) |}
  = handler_env_vars None {| project_path := pp; repo_url := ru; framework := fw;
                             ctx_env_vars := Some entries |}.
Proof.
  unfold handler_env_vars, with_secret_flags. cbn [ctx_env_vars].
  destruct entries as [|kv rest]; [reflexivity|]. cbn [List.map].
  rewrite List.map_map. reflexivity.
Qed.

Lemma container_env_map (l : list (string * string)) :
  container_env l = List.map (fun kv => {| ev_name := fst kv; ev_value := snd kv |}) l.
Proof. destruct l; reflexivity. Qed.

(** C10: a deploy call without [env_vars] takes the variables of the
    context, keeps only their [value] fields, passes them through
    [security.validate_env_vars(...)['sanitized']] and, when the Cloud Run
    call is reached, sends the result as plain [EnvVar(name, value)] pairs;
    no [isSecret] flag is read anywhere, so changing any of them changes
    nothing the handler does. With a validation that keeps the values, the
    deployed pairs are the context's names and values. *)
Theorem deploy_env_ignores_secret_flag (svc : services) (pp ru fw : option string)
    (entries : list (string * env_entry)) (flags : string -> bool)
    (project_path_arg service_name_arg : option string) :
  let c := {| project_path := pp; repo_url := ru; framework := fw;
              ctx_env_vars := Some entries |} in
  let c' := {| project_path := pp; repo_url := ru; framework := fw;
               ctx_env_vars := Some (with_secret_flags flags entries) |} in
  _handle_deploy_to_cloudrun svc c' project_path_arg service_name_arg None
    = _handle_deploy_to_cloudrun svc c project_path_arg service_name_arg None /\
  (forall service_name deploy_env,
     _handle_deploy_to_cloudrun svc c project_path_arg service_name_arg None
       = DDeploy service_name deploy_env ->
     deploy_env = match entries with
                  | [] => []
                  | _ => env_sanitized (validate_env_vars svc
                           (List.map (fun kv => (fst kv, value (snd kv))) entries))
                  end /\
     container_env deploy_env
       = List.map (fun kv => {| ev_name := fst kv; ev_value := snd kv |}) deploy_env) /\
  ((forall l, env_sanitized (validate_env_vars svc l) = l) ->
   forall service_name deploy_env,
     _handle_deploy_to_cloudrun svc c project_path_arg service_name_arg None
       = DDeploy service_name deploy_env ->
     container_env deploy_env
       = List.map (fun kv => {| ev_name := fst kv; ev_value := value (snd kv) |}) entries).
Proof.
  intros c c'.
  assert (Henv : forall n e,
     _handle_deploy_to_cloudrun svc c project_path_arg service_name_arg None = DDeploy n e ->
     e = match entries with
         | [] => []
         | _ => env_sanitized (validate_env_vars svc
                  (List.map (fun kv => (fst kv, value (snd kv))) entries))
         end).
  { intros n e H. unfold _handle_deploy_to_cloudrun in H.
    repeat match type of H with
           | context [if ?b then _ else _] => destruct b; [try discriminate H|]
           end;
      try discriminate H.
    destruct (pre_deploy_error svc); [discriminate H|].
    injection H as _ <-. unfold c, handler_env_vars. cbn [ctx_env_vars].
    destruct entries; reflexivity. }
  split; [|split].
  - unfold _handle_deploy_to_cloudrun. unfold c'.
    rewrite handler_env_vars_flags. reflexivity.
  - intros n e H. split; [exact (Henv n e H)|apply container_env_map].
  - intros Hid n e H. rewrite (Henv n e H), container_env_map.
    destruct entries as [|kv rest]; [reflexivity|]. rewrite Hid, List.map_map.
    reflexivity.
Qed.

End DeployEnv.

(** ** Session gateway *)

Section GatewayProofs.
Import Gateway GatewayExamples.

Lemma gw_step_keeps_orchestrator (g : gateway) (ev : gw_event)
    (sid : string) (o : orchestrator) (p : string) :
  session_orchestrators g !! sid = Some o ->
  Orchestrator.project_path (orch_ctx o) = Some p ->
  exists o', session_orchestrators (gw_step g ev) !! sid = Some o' /\
             orch_id o' = orch_id o /\
             Orchestrator.project_path (orch_ctx o') = Some p.
Proof.
  intros Hl Hp. destruct ev as [sid'|sid'|sid' vs|]; simpl.
  - unfold connect. simpl.
    destruct (session_orchestrators g !! sid') eqn:E.
    + exists o. auto.
    + assert (sid' <> sid) by congruence.
      exists o. rewrite lookup_insert_ne by auto. auto.
  - unfold disconnect. destruct (active_connections g !! sid'); simpl; eauto.
  - unfold env_vars_uploaded. cbn [session_orchestrators].
    destruct (decide (sid' = sid)) as [->|Hne].
    + rewrite lookup_alter_eq, Hl. simpl. eexists. split; [reflexivity|]. simpl. auto.
    + rewrite lookup_alter_ne by auto. rewrite Hl. eauto.
  - unfold cleanup_tick. simpl. eauto.
Qed.

(** C8: the orchestrator bound to a session id survives any sequence of
    connects, disconnects (cleanups), env-var uploads and cleanup-task
    passes: the same instance, with the same working-copy path, stays
    bound; and a disconnect leaves the session-to-orchestrator map as it
    was. *)
Theorem orchestrator_survives_reconnects (g : gateway) (sid : string)
    (o : orchestrator) (p : string) (es : list gw_event) :
  session_orchestrators g !! sid = Some o ->
  Orchestrator.project_path (orch_ctx o) = Some p ->
  (exists o', session_orchestrators (gw_run g es) !! sid = Some o' /\
              orch_id o' = orch_id o /\
              Orchestrator.project_path (orch_ctx o') = Some p) /\
  (forall (g' : gateway) (sid' : string),
      session_orchestrators (disconnect sid' g') = session_orchestrators g').
Proof.
  intros Hl Hp. split.
  - unfold gw_run. revert g o Hl Hp.
    induction es as [|ev es IH]; intros g o Hl Hp; simpl; [eauto|].
    destruct (gw_step_keeps_orchestrator g ev sid o p Hl Hp) as [o1 [H1 [Hid Hp1]]].
    destruct (IH (gw_step g ev) o1 H1 Hp1) as [o2 [H2 [Hid2 Hp2]]].
    exists o2. rewrite Hid2, Hid. auto.
  - intros g' sid'. unfold disconnect.
    destruct (active_connections g' !! sid'); reflexivity.
Qed.


Lemma orchestrator_survives_reconnects_witness :
  session_orchestrators gw0 !! "s1" =
    Some {| orch_id := 1;
            orch_ctx := {| Orchestrator.project_path := Some "/tmp/repo";
                           Orchestrator.repo_url := None;
                           Orchestrator.framework := None;
                           Orchestrator.ctx_env_vars := None |} |} /\
  exists o', session_orchestrators
               (gw_run gw0 [Disconnect "s1"; Connect "s1"; CleanupTick; Disconnect "s1";
                            Connect "s1"]) !! "s1" = Some o' /\
             orch_id o' = 1 /\ Orchestrator.project_path (orch_ctx o') = Some "/tmp/repo".
Proof.
  split; [reflexivity|].
  apply (orchestrator_survives_reconnects gw0 "s1"
           {| orch_id := 1;
              orch_ctx := {| Orchestrator.project_path := Some "/tmp/repo";
                             Orchestrator.repo_url := None;
                             Orchestrator.framework := None;
                             Orchestrator.ctx_env_vars := None |} |} "/tmp/repo");
    reflexivity.
Defined.

End GatewayProofs.

(** ** Post-deployment health checks *)

Section HealthProofs.
Import Health.

Lemma perform_success (codes : list Z) (p : probe) :
  success (_perform_health_check codes p) = true <->
  exists c, p = Status c /\ In c codes.
Proof.
  destruct p as [c|]; simpl.
  - rewrite existsb_exists. split.
    + intros [x [Hx Heq]]. apply Z.eqb_eq in Heq. subst x. eauto.
    + intros [c' [Hc Hin]]. injection Hc as <-. exists c. split; [exact Hin|apply Z.eqb_refl].
  - split; [discriminate|]. intros [c [Hc _]]. discriminate.
Qed.

Lemma wait_go_success (probes : nat -> probe) (codes : list Z) (fuel : nat) :
  forall attempt last,
  match last with Some r => success r = false | None => True end ->
  success (wait_go probes codes fuel attempt last) = true <->
  exists i, (attempt <= i < attempt + fuel)%nat /\
            exists c, probes i = Status c /\ In c codes.
Proof.
  induction fuel as [|fuel IH]; intros attempt last Hlast; simpl.
  - split.
    + destruct last as [r|]; [rewrite Hlast|]; discriminate.
    + intros [i [Hi _]]. lia.
  - destruct (success (_perform_health_check codes (probes attempt))) eqn:E.
    + split; [|intros _; exact E]. intros _. exists attempt. split; [lia|].
      apply perform_success. exact E.
    + rewrite (IH (S attempt) (Some _) E). split.
      * intros [i [Hi Hc]]. exists i. split; [lia|exact Hc].
      * intros [i [Hi Hc]]. destruct (Nat.eq_dec i attempt) as [->|Hne].
        -- apply perform_success in Hc. congruence.
        -- exists i. split; [lia|exact Hc].
Qed.

Lemma probe_endpoints_some (probes : nat -> string -> probe) (round : nat)
    (eps : list string) :
  (exists c, probe_endpoints probes round eps = Some c) <->
  exists ep c, In ep eps /\ probes round ep = Status c /\ (c < 500)%Z.
Proof.
  induction eps as [|ep eps IH]; simpl.
  - split; [intros [c Hc]; discriminate|]. intros [ep [c [[] _]]].
  - destruct (probes round ep) as [c|] eqn:Ep.
    + destruct (Z.ltb_spec c 500) as [Hlt|Hge].
      * split; [intros _; exists ep, c; tauto|]. intros _. eauto.
      * rewrite IH. split.
        -- intros [ep' [c' [Hin Hc]]]. exists ep', c'. tauto.
        -- intros [ep' [c' [[<-|Hin] [Hp Hc]]]].
           ++ rewrite Ep in Hp. injection Hp as <-. lia.
           ++ exists ep', c'. tauto.
    + rewrite IH. split.
      * intros [ep' [c' [Hin Hc]]]. exists ep', c'. tauto.
      * intros [ep' [c' [[<-|Hin] [Hp Hc]]]].
        -- rewrite Ep in Hp. discriminate.
        -- exists ep', c'. tauto.
Qed.

Lemma verify_go_healthy (probes : nat -> string -> probe) (fuel : nat) :
  forall round,
  healthy (verify_go probes fuel round) = true <->
  exists r, (round <= r < round + fuel)%nat /\
            exists ep c, In ep endpoints_to_check /\ probes r ep = Status c /\ (c < 500)%Z.
Proof.
  induction fuel as [|fuel IH]; intros round; cbn [verify_go].
  - split; [discriminate|]. intros [r [Hr _]]. lia.
  - destruct (probe_endpoints probes round endpoints_to_check) as [c|] eqn:E.
    + split; [|reflexivity]. intros _. exists round. split; [lia|].
      apply probe_endpoints_some. eauto.
    + rewrite IH. split.
      * intros [r [Hr Hc]]. exists r. split; [lia|exact Hc].
      * intros [r [Hr Hc]]. destruct (Nat.eq_dec r round) as [->|Hne].
        -- apply probe_endpoints_some in Hc. destruct Hc as [c Hc]. congruence.
        -- exists r. split; [lia|exact Hc].
Qed.

(** C2 (amended): the two post-deployment verifiers differ. The
    orchestrator's [HealthCheckService.wait_for_service_ready] (default
    codes) reports success exactly when one of its [max_retries] attempts
    observes 200, 204, 301 or 302; the Cloud Run service's own
    [_verify_deployment_health] reports healthy exactly when, in one of
    its rounds, one of ["/"; "/health"; "/api/health"] answers with a
    status below 500; that result is only logged: the deployment is
    reported successful either way, with a warning logged exactly when the
    service was not found healthy. *)
Theorem health_verifiers_acceptance (probes : nat -> probe)
    (max_retries : nat) (gprobes : nat -> string -> probe) (rounds : nat) :
  (success (wait_for_service_ready probes max_retries None) = true <->
   exists i, (i < max_retries)%nat /\
             exists c, probes i = Status c /\ In c [200; 204; 301; 302]%Z) /\
  (healthy (_verify_deployment_health gprobes rounds) = true <->
   exists r, (r < rounds)%nat /\
             exists ep c, In ep endpoints_to_check /\ gprobes r ep = Status c /\ (c < 500)%Z) /\
  (forall unique_service_name : string,
     let d := deploy_to_cloudrun_finish unique_service_name
                (_verify_deployment_health gprobes rounds) in
     deploy_success d = true /\
     (health_warning_logged d = true <->
      healthy (_verify_deployment_health gprobes rounds) = false)).
Proof.
  split; [|split]; cycle 2.
  { intros n d. split; [reflexivity|]. unfold d, deploy_to_cloudrun_finish.
    cbn [health_warning_logged].
    destruct (healthy _); split; intros H; try reflexivity; discriminate H. }
  - unfold wait_for_service_ready. rewrite (wait_go_success probes _ max_retries 0 None I).
    split; intros [i [Hi Hc]]; exists i; (split; [lia|exact Hc]).
  - unfold _verify_deployment_health. rewrite verify_go_healthy.
    split; intros [r [Hr Hc]]; exists r; (split; [lia|exact Hc]).
Qed.

(** C2 (counterexample): a service that answers 404 at every attempt
    fails the orchestrator's verification ([max_retries=5], default
    codes), although 404 is below 500. *)
Lemma health_404_not_ready :
  wait_for_service_ready (fun _ => Status 404) 5 None =
    {| success := false; status_code := Some 404%Z |}.
Proof. reflexivity. Qed.

End HealthProofs.

(** ** Model broker *)

Section BrokerProofs.
Import Orchestrator BrokerObs.
Variable oracle : nat -> outcome.
Variable svc : services.


Lemma grows_ret {A} (a : A) : grows (ret a).
Proof. intros s. exists []. simpl. rewrite app_nil_r. reflexivity. Qed.

Lemma grows_tell (e : event) : grows (tell e).
Proof. intros s. exists [e]. reflexivity. Qed.

Lemma grows_bind {A B} (c : M A) (k : A -> M B) :
  grows c -> (forall a, grows (k a)) -> grows (bind c k).
Proof.
  intros Hc Hk s. unfold bind. destruct (c s) as [a s1] eqn:E.
  destruct (Hc s) as [n1 H1]. rewrite E in H1. simpl in H1.
  destruct (Hk a s1) as [n2 H2]. exists (n1 ++ n2)%list.
  rewrite H2, H1, app_assoc. reflexivity.
Qed.

Lemma grows_send_message (msg : string) : grows (send_message oracle msg).
Proof.
  intros s. unfold send_message, bind, get, put, ret, request.
  destruct (chat_session s) as [c|]; simpl.
  - destruct (oracle (clock s)); simpl; eexists; reflexivity.
  - exists []. rewrite app_nil_r. reflexivity.
Qed.

Lemma grows_retry_go (func : M outcome) :
  grows func ->
  forall fuel attempt max_retries base_delay,
    grows (retry_go func fuel attempt max_retries base_delay).
Proof.
  intros Hf fuel. induction fuel as [|fuel IH]; intros; simpl; [apply grows_ret|].
  apply grows_bind; [exact Hf|]. intros [r|e]; [apply grows_ret|].
  destruct (_ || _); [apply grows_ret|].
  apply grows_bind; [apply grows_tell|]. intros _.
  apply grows_bind; [apply grows_tell|]. intros _. apply IH.
Qed.


Lemma grows_send_with_fallback (msg : string) : grows (_send_with_fallback oracle msg).
Proof.
  unfold _send_with_fallback. apply grows_bind.
  - apply grows_retry_go, grows_send_message.
  - intros [r'|e]; [apply grows_ret|]. destruct (is_quota_error e); [|apply grows_ret].
    intros s0. unfold bind at 1, get. simpl.
    destruct (use_vertex_ai s0 && has_api_key s0).
    + apply grows_bind; [apply grows_tell|]. intros _.
      intros s1. unfold bind at 1, request. simpl.
      destruct (oracle (clock s1)) as [r1|e1].
      * unfold bind, get, put, tell, ret. simpl. eexists.
        rewrite <- app_assoc. reflexivity.
      * exists [Request GeminiAPI [] msg]. reflexivity.
    + destruct (negb (has_api_key s0)); apply grows_ret.
Qed.

Lemma grows_get {A} (k : state -> M A) :
  (forall s0, grows (k s0)) -> grows (bind get k).
Proof. intros Hk s. exact (Hk s s). Qed.

Lemma grows_get_put_ctx {A} (f : state -> project_context) (k : M A) :
  grows k -> grows (bind get (fun s => bind (put (with_ctx s (f s))) (fun _ => k))).
Proof. intros Hk s. exact (Hk (with_ctx s (f s))). Qed.

Lemma grows_agent_request (ep : endpoint) (prompt : string) :
  grows (agent_request oracle ep prompt).
Proof. intros s. exists [AgentRequest ep prompt]. reflexivity. Qed.

Lemma grows_handle_clone (repo_url branch : string) :
  grows (_handle_clone_and_analyze oracle svc repo_url branch).
Proof.
  unfold _handle_clone_and_analyze.
  apply grows_bind; [apply grows_tell|]. intros _.
  destruct (clone_repository svc repo_url branch) as [pp|]; [|apply grows_ret].
  apply grows_get_put_ctx.
  apply grows_bind; [apply grows_tell|]. intros _.
  apply grows_bind; [apply grows_agent_request|]. intros a.
  apply grows_bind.
  { destruct (has_template svc _); [apply grows_ret|].
    apply grows_bind; [apply grows_agent_request|]. intros o. apply grows_ret. }
  intros d. destruct (analysis_ok svc a d); [|apply grows_ret].
  apply grows_get_put_ctx. apply grows_ret.
Qed.

Lemma grows_deploy_handler (args : list (string * arg)) :
  grows (deploy_handler svc args).
Proof.
  unfold deploy_handler. apply grows_get. intros s0.
  destruct (_handle_deploy_to_cloudrun _ _ _ _ _); [apply grows_ret|].
  apply grows_bind; [apply grows_tell|]. intros _. apply grows_ret.
Qed.

Lemma grows_handle_function_call (fc : function_call) :
  grows (_handle_function_call oracle svc fc).
Proof.
  unfold _handle_function_call.
  destruct (route (fc_name fc)) as [h|]; [|apply grows_ret].
  destruct (bind_error h (fc_args fc)); [apply grows_ret|].
  apply grows_bind; [apply grows_tell|]. intros _.
  destruct h; [apply grows_handle_clone|apply grows_deploy_handler|apply grows_ret..].
Qed.


Lemma snd_bind {A B} (c : M A) (k : A -> M B) (s : state) :
  snd (bind c k s) = snd (k (fst (c s)) (snd (c s))).
Proof. unfold bind. destruct (c s). reflexivity. Qed.

Lemma ensure_chat_session_spec (s : state) :
  (exists c, chat_session (snd (ensure_chat_session s)) = Some c) /\
  clock (snd (ensure_chat_session s)) = clock s /\
  events (snd (ensure_chat_session s)) = events s.
Proof.
  unfold ensure_chat_session, bind, get. simpl.
  destruct (chat_session s) as [c|] eqn:E; simpl; eauto.
Qed.


(** The state on which [process_message] sends the enhanced message. *)
Definition state_before_send (s : state) : state :=
  snd (ensure_chat_session (snd (tell (Progress "ServerGem AI is processing your request...") s))).







Lemma good_ret {A} (a : A) : good (ret a).
Proof.
  intros s Hb. split; [exact Hb|]. exists []. simpl.
  rewrite app_nil_r. auto.
Qed.

Lemma good_tell (e : event) : not_primary e -> good (tell e).
Proof.
  intros He s Hb. split; [exact Hb|]. exists [e]. split; [reflexivity|].
  constructor; auto.
Qed.

Lemma good_bind {A B} (c : M A) (k : A -> M B) :
  good c -> (forall a, good (k a)) -> good (bind c k).
Proof.
  intros Hc Hk s Hb. unfold good_at, bind.
  destruct (c s) as [a s1] eqn:E.
  destruct (Hc s Hb) as [Hb1 [n1 [H1 F1]]]. rewrite E in Hb1, H1. simpl in Hb1, H1.
  destruct (Hk a s1 Hb1) as [Hb2 [n2 [H2 F2]]].
  split; [exact Hb2|]. exists (n1 ++ n2)%list. split.
  - rewrite H2, H1, app_assoc. reflexivity.
  - apply Forall_app. auto.
Qed.

Lemma good_get {A} (k : state -> M A) :
  (forall s, backup_mode s -> good_at (k s) s) -> good (bind get k).
Proof. intros Hk s Hb. exact (Hk s Hb). Qed.

Lemma good_send_message (msg : string) : good (send_message oracle msg).
Proof.
  intros s Hb. pose proof Hb as [Hv [Hm Hc]].
  unfold good_at, send_message, bind, get, put, ret, request.
  destruct (chat_session s) as [c|] eqn:E; simpl.
  - assert (Hce : chat_ep c = GeminiAPI) by auto.
    destruct (oracle (clock s)); simpl.
    + split.
      * split; [exact Hv|]. split; [exact Hm|].
        intros c' Hc'. injection Hc' as <-. exact Hce.
      * eexists. split; [reflexivity|]. rewrite Hce. repeat constructor.
    + split.
      * split; [exact Hv|]. split; [exact Hm|]. simpl. rewrite E. exact Hc.
      * eexists. split; [reflexivity|]. rewrite Hce. repeat constructor.
  - split; [exact Hb|]. exists []. rewrite app_nil_r. auto.
Qed.

Lemma good_retry_go (func : M outcome) :
  good func ->
  forall fuel attempt max_retries base_delay,
    good (retry_go func fuel attempt max_retries base_delay).
Proof.
  intros Hf fuel. induction fuel as [|fuel IH]; intros; simpl; [apply good_ret|].
  apply good_bind; [exact Hf|]. intros [r|e]; [apply good_ret|].
  destruct (_ || _); [apply good_ret|].
  apply good_bind; [apply good_tell; exact I|]. intros _.
  apply good_bind; [apply good_tell; exact I|]. intros _. apply IH.
Qed.

Lemma good_send_with_fallback (msg : string) : good (_send_with_fallback oracle msg).
Proof.
  unfold _send_with_fallback. apply good_bind.
  - apply good_retry_go, good_send_message.
  - intros [r|e]; [apply good_ret|]. destruct (is_quota_error e); [|apply good_ret].
    apply good_get. intros s [Hv Hrest]. rewrite Hv. simpl.
    destruct (negb (has_api_key s)); apply good_ret; split; auto.
Qed.

Lemma good_agent_request (ep : endpoint) (prompt : string) :
  good (agent_request oracle ep prompt).
Proof.
  intros s Hb. split; [exact Hb|]. exists [AgentRequest ep prompt].
  split; [reflexivity|]. repeat constructor.
Qed.

Lemma good_get_put_ctx {A} (f : state -> project_context) (k : M A) :
  good k -> good (bind get (fun s => bind (put (with_ctx s (f s))) (fun _ => k))).
Proof. intros Hk s Hb. exact (Hk (with_ctx s (f s)) Hb). Qed.

Lemma good_handle_clone (repo_url branch : string) :
  good (_handle_clone_and_analyze oracle svc repo_url branch).
Proof.
  unfold _handle_clone_and_analyze.
  apply good_bind; [apply good_tell; exact I|]. intros _.
  destruct (clone_repository svc repo_url branch) as [pp|]; [|apply good_ret].
  apply good_get_put_ctx.
  apply good_bind; [apply good_tell; exact I|]. intros _.
  apply good_bind; [apply good_agent_request|]. intros a.
  apply good_bind.
  { destruct (has_template svc _); [apply good_ret|].
    apply good_bind; [apply good_agent_request|]. intros o. apply good_ret. }
  intros d. destruct (analysis_ok svc a d); [|apply good_ret].
  apply good_get_put_ctx. apply good_ret.
Qed.

Lemma good_deploy_handler (args : list (string * arg)) :
  good (deploy_handler svc args).
Proof.
  unfold deploy_handler. apply good_get. intros s0 Hb.
  destruct (_handle_deploy_to_cloudrun _ _ _ _ _); [apply good_ret; exact Hb|].
  apply (good_bind _ _ (good_tell (DeployCall service_name deploy_env) I)); [|exact Hb].
  intros _. apply good_ret.
Qed.

Lemma good_handle_function_call (fc : function_call) :
  good (_handle_function_call oracle svc fc).
Proof.
  unfold _handle_function_call.
  destruct (route (fc_name fc)) as [h|]; [|apply good_ret].
  destruct (bind_error h (fc_args fc)); [apply good_ret|].
  apply good_bind; [apply good_tell; exact I|]. intros _.
  destruct h; [apply good_handle_clone|apply good_deploy_handler|apply good_ret..].
Qed.

Lemma good_process_message (m : string) : good (process_message oracle svc m).
Proof.
  unfold process_message.
  apply good_bind; [apply good_tell; exact I|]. intros _.
  apply good_bind.
  { unfold ensure_chat_session. apply good_get. intros s Hb.
    destruct (chat_session s) as [c|] eqn:E; [apply good_ret; exact Hb|].
    pose proof Hb as [Hv [Hm Hc]]. split.
    - split; [exact Hv|]. split; [exact Hm|]. intros c' Hc'.
      simpl in Hc'. injection Hc' as <-. exact Hm.
    - exists []. rewrite app_nil_r. auto. }
  intros _. apply good_get. intros s Hb.
  refine (good_bind _ _ (good_send_with_fallback _) _ s Hb).
  intros [r|e]; [|apply good_ret].
  destruct (resp_call r) as [fc|]; [|apply good_ret].
  apply good_bind; [apply good_handle_function_call|].
  intros [k|e]; [|apply good_ret].
  apply good_bind; [apply good_retry_go, good_send_message|].
  intros [r2|e]; apply good_ret.
Qed.

Lemma good_run_session (msgs : list string) : good (run_session oracle svc msgs).
Proof.
  induction msgs as [|m ms IH]; simpl; [apply good_ret|].
  apply good_bind; [apply good_process_message|]. intros r.
  apply good_bind; [exact IH|]. intros rs. apply good_ret.
Qed.

Lemma keeps_flags_ret {A} (a : A) : keeps_flags (ret a).
Proof. intros s. auto. Qed.

Lemma keeps_flags_tell (e : event) : keeps_flags (tell e).
Proof. intros s. auto. Qed.

Lemma keeps_flags_bind {A B} (c : M A) (k : A -> M B) :
  keeps_flags c -> (forall a, keeps_flags (k a)) -> keeps_flags (bind c k).
Proof.
  intros Hc Hk s. rewrite snd_bind.
  destruct (Hc s) as [H1 H2]. destruct (Hk (fst (c s)) (snd (c s))) as [H3 H4].
  split; congruence.
Qed.

Lemma keeps_flags_send_message (msg : string) : keeps_flags (send_message oracle msg).
Proof.
  intros s. unfold send_message, bind, get, put, ret, request.
  destruct (chat_session s); simpl; [destruct (oracle (clock s)); simpl|]; auto.
Qed.

Lemma keeps_flags_retry_send (msg : string) fuel attempt max_retries base_delay :
  keeps_flags (retry_go (send_message oracle msg) fuel attempt max_retries base_delay).
Proof.
  revert attempt. induction fuel as [|fuel IH]; intros attempt; simpl;
    [apply keeps_flags_ret|].
  apply keeps_flags_bind; [apply keeps_flags_send_message|].
  intros [r|e]; [apply keeps_flags_ret|]. destruct (_ || _); [apply keeps_flags_ret|].
  apply keeps_flags_bind; [apply keeps_flags_tell|]. intros _.
  apply keeps_flags_bind; [apply keeps_flags_tell|]. intros _. apply IH.
Qed.

(** C3 (amended): once a send has failed over (the broker was on the
    primary and is on the backup afterwards), the message was re-issued to
    the backup endpoint on an empty history, the session now holds the
    backup chat, and every later chat send of the orchestrator in the
    session, user messages and function results alike, goes to the backup
    endpoint: no [Request] of the orchestrator's chat reaches the primary
    again. The sub-agents' own model calls ([AgentRequest]) are outside
    this: they keep their endpoints. *)
Theorem failover_is_permanent (msg : string) (s s1 : state) (res : outcome) :
  use_vertex_ai s = true ->
  _send_with_fallback oracle msg s = (res, s1) ->
  use_vertex_ai s1 = false ->
  (exists r pre,
     res = Ok r /\
     chat_session s1 = Some {| chat_ep := GeminiAPI; history := [msg; resp_text r] |} /\
     events s1 = (events s ++ pre ++
                  [Request GeminiAPI [] msg;
                   Progress "Now using Gemini API - deployment continues..."])%list) /\
  backup_mode s1 /\
  (forall msgs : list string,
     backup_mode (snd (run_session oracle svc msgs s1)) /\
     exists new, events (snd (run_session oracle svc msgs s1)) = (events s1 ++ new)%list /\
                 Forall not_primary new).
Proof.
  intros Hv H Hv1.
  assert (Hb1 : (exists r pre,
     res = Ok r /\
     chat_session s1 = Some {| chat_ep := GeminiAPI; history := [msg; resp_text r] |} /\
     events s1 = (events s ++ pre ++
                  [Request GeminiAPI [] msg;
                   Progress "Now using Gemini API - deployment continues..."])%list) /\
     backup_mode s1).
  { unfold _send_with_fallback, bind at 1 in H.
    destruct (_retry_with_backoff (send_message oracle msg) 2 1 s) as [o s0] eqn:Er.
    destruct (keeps_flags_retry_send msg 2 0 2 1 s) as [Hf1 Hf2].
    unfold _retry_with_backoff in Er. rewrite Er in Hf1, Hf2. simpl in Hf1, Hf2.
    destruct (grows_retry_go _ (grows_send_message msg) 2 0 2 1 s) as [n0 Hn0].
    rewrite Er in Hn0. simpl in Hn0.
    destruct o as [r|e].
    - unfold ret in H. injection H as <- <-. congruence.
    - destruct (is_quota_error e); [|unfold ret in H; injection H as <- <-; congruence].
      unfold bind at 1, get in H. rewrite Hf1, Hv in H. simpl in H.
      destruct (has_api_key s0) eqn:Hk; simpl in H.
      + unfold bind, tell, request, get, put, ret in H. simpl in H.
        destruct (oracle (clock s0)) as [r|fe]; simpl in H; injection H as <- <-;
          simpl in Hv1 |- *; [|congruence].
        split.
        * exists r, (n0 ++ [Progress "Vertex AI quota exhausted. Switching to backup AI service..."])%list.
          split; [reflexivity|]. split; [reflexivity|].
          rewrite Hn0, <- !app_assoc. reflexivity.
        * split; [reflexivity|]. split; [reflexivity|].
          intros c Hc. injection Hc as <-. reflexivity.
      + unfold ret in H. injection H as <- <-. congruence. }
  destruct Hb1 as [Hfo Hb1]. split; [exact Hfo|]. split; [exact Hb1|].
  intros msgs. exact (good_run_session msgs s1 Hb1).
Qed.



Lemma send_message_err (msg : string) (s : state) (c : chat) (e : string) :
  chat_session s = Some c -> oracle (clock s) = Err e ->
  send_message oracle msg s =
    (Err e, tick (with_events s (events s ++ [Request (chat_ep c) (history c) msg])%list)).
Proof.
  intros Hc Ho. unfold send_message, bind, get, request, ret.
  rewrite Hc. simpl. rewrite Ho. reflexivity.
Qed.

Lemma retry_non_network (msg : string) (s : state) (c : chat) (e : string)
    fuel attempt max_retries base_delay :
  chat_session s = Some c -> oracle (clock s) = Err e -> is_network_error e = false ->
  retry_go (send_message oracle msg) (S fuel) attempt max_retries base_delay s =
    (Err e, tick (with_events s (events s ++ [Request (chat_ep c) (history c) msg])%list)).
Proof.
  intros Hc Ho Hn. simpl. unfold bind at 1.
  rewrite (send_message_err msg s c e Hc Ho). rewrite Hn. reflexivity.
Qed.

Lemma bind_apply {A B} (c : M A) (k : A -> M B) (s : state) :
  bind c k s = k (fst (c s)) (snd (c s)).
Proof. unfold bind. destruct (c s). reflexivity. Qed.

Lemma retry_all_network (msg : string) (base_delay : Z) (k : nat) :
  forall (attempt max_retries : nat) (s : state) (c : chat),
  chat_session s = Some c ->
  (forall i, (i < S k)%nat ->
     exists e, oracle (clock s + i) = Err e /\ is_network_error e = true) ->
  (attempt + S k = max_retries)%nat ->
  exists new,
    events (snd (retry_go (send_message oracle msg) (S k) attempt max_retries base_delay s))
      = (events s ++ new)%list /\
    fst (retry_go (send_message oracle msg) (S k) attempt max_retries base_delay s)
      = oracle (clock s + k) /\
    request_count new = S k /\
    sleeps new = List.map (fun i => (base_delay * 2 ^ Z.of_nat (attempt + i))%Z) (seq 0 k).
Proof.
  induction k as [|k IH]; intros attempt max_retries s c Hc Hall Hmax.
  - destruct (Hall 0%nat ltac:(lia)) as [e [Ho Hn]]. rewrite Nat.add_0_r in Ho.
    assert (Hr : retry_go (send_message oracle msg) 1 attempt max_retries base_delay s =
      (Err e, tick (with_events s (events s ++ [Request (chat_ep c) (history c) msg])%list))).
    { cbn [retry_go]. rewrite bind_apply, (send_message_err msg s c e Hc Ho).
      cbn [fst snd].
      replace (Nat.eqb attempt (max_retries - 1)) with true
        by (symmetry; apply Nat.eqb_eq; lia).
      rewrite orb_true_r. reflexivity. }
    rewrite Hr. exists [Request (chat_ep c) (history c) msg].
    rewrite Nat.add_0_r, Ho. repeat split; reflexivity.
  - destruct (Hall 0%nat ltac:(lia)) as [e [Ho Hn]]. rewrite Nat.add_0_r in Ho.
    set (pre := [Request (chat_ep c) (history c) msg;
                 Progress "Network issue detected, retrying...";
                 Sleep (base_delay * 2 ^ Z.of_nat attempt)%Z]).
    set (s2 := with_events (tick s) (events s ++ pre)%list).
    assert (Hr : retry_go (send_message oracle msg) (S (S k)) attempt max_retries base_delay s =
      retry_go (send_message oracle msg) (S k) (S attempt) max_retries base_delay s2).
    { cbn [retry_go]. rewrite bind_apply, (send_message_err msg s c e Hc Ho).
      cbn [fst snd].
      replace (Nat.eqb attempt (max_retries - 1)) with false
        by (symmetry; apply Nat.eqb_neq; lia).
      rewrite Hn. cbn [negb orb]. rewrite !bind_apply. unfold tell. cbn [fst snd].
      unfold s2, pre, with_events, tick. cbn. rewrite <- !app_assoc. reflexivity. }
    rewrite Hr.
    destruct (IH (S attempt) max_retries s2 c) as [new [Hev [Hfst [Hcnt Hsl]]]].
    + exact Hc.
    + intros i Hi. destruct (Hall (S i) ltac:(lia)) as [e' [Ho' Hn']].
      exists e'. split; [|exact Hn']. rewrite <- Ho'. f_equal. simpl. lia.
    + lia.
    + rewrite Hev, Hfst. exists (pre ++ new)%list.
      split; [simpl; rewrite <- !app_assoc; reflexivity|].
      split; [simpl; f_equal; lia|].
      split; [unfold request_count in *; simpl; rewrite Hcnt; reflexivity|].
      unfold sleeps in *. rewrite List.flat_map_app, Hsl. simpl.
      rewrite Nat.add_0_r. f_equal.
      rewrite <- seq_shift, List.map_map. apply List.map_ext. intros i.
      do 3 f_equal. lia.
Qed.
(** C4. A send through [_retry_with_backoff] with [max_retries] attempts
    and base delay [base_delay]: an error outside the network keyword list
    ends the call after one request with no delay; when every attempt
    fails with a network error, exactly [max_retries] requests are made,
    separated by delays [base_delay * 2 ^ i] for [i < max_retries - 1], and
    the last error is returned. The user-message send [_send_with_fallback]
    uses 2 attempts and base delay 1: two network errors that are not
    quota errors give two requests, a single delay of 1 s, and the second
    error. Sending a function result back ([send_function_response]) uses
    3 attempts and base delay 2: three network errors give three requests
    with delays of 2 s and 4 s. *)
Theorem llm_send_retry_policy (msg : string) (s : state) (c : chat) :
  chat_session s = Some c ->
  (forall e max_retries base_delay, (1 <= max_retries)%nat ->
     oracle (clock s) = Err e -> is_network_error e = false ->
     _retry_with_backoff (send_message oracle msg) max_retries base_delay s =
       (Err e, tick (with_events s (events s ++ [Request (chat_ep c) (history c) msg])%list))) /\
  (forall max_retries base_delay, (1 <= max_retries)%nat ->
     (forall i, (i < max_retries)%nat ->
        exists e, oracle (clock s + i) = Err e /\ is_network_error e = true) ->
     exists new,
       events (snd (_retry_with_backoff (send_message oracle msg) max_retries base_delay s))
         = (events s ++ new)%list /\
       fst (_retry_with_backoff (send_message oracle msg) max_retries base_delay s)
         = oracle (clock s + (max_retries - 1)) /\
       request_count new = max_retries /\
       sleeps new = List.map (fun i => (base_delay * 2 ^ Z.of_nat i)%Z) (seq 0 (max_retries - 1))) /\
  (forall e0 e1, oracle (clock s) = Err e0 -> oracle (S (clock s)) = Err e1 ->
     is_network_error e0 = true -> is_network_error e1 = true -> is_quota_error e1 = false ->
     fst (_send_with_fallback oracle msg s) = Err e1 /\
     exists new,
       events (snd (_send_with_fallback oracle msg s)) = (events s ++ new)%list /\
       request_count new = 2%nat /\ sleeps new = [1%Z]) /\
  (forall name,
     (forall i, (i < 3)%nat ->
        exists e, oracle (clock s + i) = Err e /\ is_network_error e = true) ->
     exists new,
       events (snd (send_function_response oracle name s)) = (events s ++ new)%list /\
       fst (send_function_response oracle name s) = oracle (clock s + 2) /\
       request_count new = 3%nat /\ sleeps new = [2%Z; 4%Z]).
Proof.
  intros Hc. split; [|split; [|split]].
  - intros e max_retries base_delay Hm Ho Hn.
    destruct max_retries as [|k]; [lia|].
    unfold _retry_with_backoff. apply (retry_non_network msg s c e); assumption.
  - intros max_retries base_delay Hm Hall.
    destruct max_retries as [|k]; [lia|].
    unfold _retry_with_backoff.
    destruct (retry_all_network msg base_delay k 0 (S k) s c Hc Hall ltac:(lia))
      as [new [Hev [Hfst [Hcnt Hsl]]]].
    exists new. rewrite Hev, Hfst. simpl Nat.sub. rewrite Nat.sub_0_r.
    repeat split; assumption.
  - intros e0 e1 Ho0 Ho1 Hn0 Hn1 Hq.
    assert (Hall : forall i, (i < 2)%nat ->
              exists e, oracle (clock s + i) = Err e /\ is_network_error e = true).
    { intros i Hi. destruct i as [|[|i]]; [| |lia].
      - exists e0. rewrite Nat.add_0_r. split; assumption.
      - exists e1. rewrite Nat.add_1_r. split; assumption. }
    destruct (retry_all_network msg 1 1 0 2 s c Hc Hall ltac:(lia))
      as [new [Hev [Hfst [Hcnt Hsl]]]].
    unfold _send_with_fallback. rewrite bind_apply.
    unfold _retry_with_backoff in *.
    rewrite Hfst, Nat.add_1_r, Ho1, Hq.
    split; [reflexivity|]. exists new. split; [exact Hev|]. split; [exact Hcnt|].
    rewrite Hsl. reflexivity.
  - intros name Hall. unfold send_function_response, _retry_with_backoff.
    destruct (retry_all_network ("function_response:" ++ name) 2 2 0 3 s c Hc Hall
                ltac:(lia)) as [new [Hev [Hfst [Hcnt Hsl]]]].
    exists new. split; [exact Hev|]. split; [exact Hfst|]. split; [exact Hcnt|].
    rewrite Hsl. reflexivity.
Qed.

Lemma bind_error_no_notifier (h : handler) (args : list (string * arg)) :
  str_mem "progress_notifier" (handler_params h) = false ->
  exists e, bind_error h args = Some e.
Proof.
  intros Hp. unfold bind_error.
  destruct (List.find _ (List.map fst args)); [eauto|].
  cbn [List.find]. rewrite Hp. cbn [negb]. eauto.
Qed.

(** A call that does not bind to its handler ([bind_error] gives the
    [TypeError] text) runs no handler: [process_message] answers with that
    text, in the state the model send left. *)
Lemma process_message_bind_error (m : string) (s : state) (r : response)
    (fc : function_call) (h : handler) (e : string) :
  fst (_send_with_fallback oracle (enhanced_message (ctx (state_before_send s)) m)
         (state_before_send s)) = Ok r ->
  resp_call r = Some fc -> route (fc_name fc) = Some h ->
  bind_error h (fc_args fc) = Some e ->
  process_message oracle svc m s =
    (RError e, snd (_send_with_fallback oracle
                      (enhanced_message (ctx (state_before_send s)) m)
                      (state_before_send s))).
Proof.
  intros Hf Hr Hroute Hb. unfold process_message.
  rewrite bind_apply. cbv beta. rewrite bind_apply. cbv beta.
  rewrite bind_apply. cbn [fst snd get]. rewrite bind_apply.
  change (snd (ensure_chat_session
                 (snd (tell (Progress "ServerGem AI is processing your request...") s))))
    with (state_before_send s).
  rewrite Hf. cbv beta iota. rewrite Hr. cbv beta iota.
  rewrite bind_apply. unfold _handle_function_call. rewrite Hroute, Hb.
  reflexivity.
Qed.

(** [list_user_repositories] and [get_deployment_logs] calls never reach
    their handlers: [_handle_function_call] passes [progress_notifier=],
    which neither [_handle_list_repos] nor [_handle_get_logs] accepts, so
    every such call raises [TypeError]; [process_message] then answers
    with the error text, and no handler runs and no function result is
    sent back. *)
Theorem list_logs_calls_raise_type_error :
  (forall args, exists e, bind_error HListRepos args = Some e) /\
  (forall args, exists e, bind_error HGetLogs args = Some e) /\
  (forall (m : string) (s : state) (r : response) (fc : function_call) (h : handler),
     fst (_send_with_fallback oracle (enhanced_message (ctx (state_before_send s)) m)
            (state_before_send s)) = Ok r ->
     resp_call r = Some fc -> route (fc_name fc) = Some h ->
     h = HListRepos \/ h = HGetLogs ->
     exists e,
       bind_error h (fc_args fc) = Some e /\
       process_message oracle svc m s =
         (RError e, snd (_send_with_fallback oracle
                           (enhanced_message (ctx (state_before_send s)) m)
                           (state_before_send s)))).
Proof.
  split; [|split].
  - intros args. apply bind_error_no_notifier. reflexivity.
  - intros args. apply bind_error_no_notifier. reflexivity.
  - intros m s r fc h Hf Hr Hroute Hh.
    destruct (bind_error_no_notifier h (fc_args fc)) as [e He];
      [destruct Hh as [->| ->]; reflexivity|].
    exists e. split; [exact He|].
    exact (process_message_bind_error m s r fc h e Hf Hr Hroute He).
Qed.

End BrokerProofs.

(** ** Model broker on concrete sessions *)

Section BrokerInstances.
Import Orchestrator BrokerObs BrokerExamples.



Lemma failover_is_permanent_witness :
  use_vertex_ai s_vertex = true /\
  _send_with_fallback or_quota "deploy my app" s_vertex =
    (fst failover_result, snd failover_result) /\
  use_vertex_ai (snd failover_result) = false /\
  backup_mode (snd failover_result).
Proof.
  split; [reflexivity|]. split; [apply surjective_pairing|].
  split; [vm_compute; reflexivity|].
  destruct (failover_is_permanent or_quota svc_ok "deploy my app" s_vertex
              (snd failover_result) (fst failover_result)
              eq_refl (surjective_pairing _) ltac:(vm_compute; reflexivity))
    as [_ [Hb _]].
  exact Hb.
Defined.

(** C3 (counterexample): the first message fails over to the backup; on
    the next one the model asks for [clone_and_analyze_repo], and the code
    analyzer sends its request to its own Vertex AI model. *)
Lemma failover_then_analyzer_on_primary :
  use_vertex_ai after_failover = false /\
  ~ In (AgentRequest VertexAI "Analyze the project at /tmp/servergem_app")
       (events after_failover) /\
  In (AgentRequest VertexAI "Analyze the project at /tmp/servergem_app")
     (events after_clone_request).
Proof.
  split; [vm_compute; reflexivity|]. split.
  - vm_compute. intros H. repeat destruct H as [H|H]; try discriminate H; exact H.
  - vm_compute. repeat (first [left; reflexivity | right]).
Qed.

Lemma llm_send_retry_policy_witness :
  chat_session s_vertex = Some {| chat_ep := VertexAI; history := [] |} /\
  fst (_send_with_fallback or_timeout "deploy my app" s_vertex) = Err "Read timeout (503)".
Proof.
  split; [reflexivity|].
  destruct (llm_send_retry_policy or_timeout "deploy my app" s_vertex
              {| chat_ep := VertexAI; history := [] |} eq_refl) as [_ [_ [H3 _]]].
  destruct (H3 "Read timeout (503)" "Read timeout (503)" eq_refl eq_refl
              ltac:(vm_compute; reflexivity) ltac:(vm_compute; reflexivity)
              ltac:(vm_compute; reflexivity)) as [Hf _].
  exact Hf.
Defined.

(** C4 (counterexample): on an endpoint that times out every time, a
    user-message send makes 2 requests with a single 1 s delay between
    them, not 3 attempts. *)
Lemma user_send_two_attempts :
  request_count (events (snd (_send_with_fallback or_timeout "deploy my app" s_vertex))) = 2%nat /\
  sleeps (events (snd (_send_with_fallback or_timeout "deploy my app" s_vertex))) = [1%Z].
Proof. split; vm_compute; reflexivity. Qed.

Lemma list_logs_calls_raise_type_error_witness :
  process_message or_logs svc_ok "show me the logs" s_cloned =
    (RError "OrchestratorAgent._handle_get_logs() got an unexpected keyword argument 'progress_notifier'",
     snd (_send_with_fallback or_logs
            (enhanced_message (ctx (state_before_send s_cloned)) "show me the logs")
            (state_before_send s_cloned))).
Proof.
  destruct (list_logs_calls_raise_type_error or_logs svc_ok) as [_ [_ H]].
  destruct (H "show me the logs" s_cloned logs_reply
              {| fc_name := "get_deployment_logs";
                 fc_args := [("service_name", AStr "app")] |} HGetLogs
              ltac:(vm_compute; reflexivity) eq_refl eq_refl (or_intror eq_refl))
    as [e [He Hp]].
  rewrite Hp. vm_compute in He. injection He as <-. reflexivity.
Defined.

End BrokerInstances.

(** ** Cloud Build and Cloud Run service *)

Section CloudProofs.
Import Cloud StrObs.

Lemma execute_go_S {A} (func : nat -> call_result A) fuel attempt max_retries base_delay last :
  execute_go func (S fuel) attempt max_retries base_delay last =
  match func attempt with
  | CReturn a => {| xres := XReturn a; xcalls := 1; xsleeps := [] |}
  | CRaise e =>
      let delay := if (attempt <? max_retries - 1)%nat
                   then [(base_delay * 2 ^ Z.of_nat attempt)%Z] else [] in
      let rest := execute_go func fuel (S attempt) max_retries base_delay (Some e) in
      {| xres := xres rest; xcalls := S (xcalls rest);
         xsleeps := (delay ++ xsleeps rest)%list |}
  end.
Proof. reflexivity. Qed.

Lemma execute_go_recovers {A} (func : nat -> call_result A) (base_delay : Z) (j : nat) :
  forall fuel attempt max_retries last a,
  (j < fuel)%nat -> (attempt + fuel = max_retries)%nat ->
  (forall i, (i < j)%nat -> exists e, func (attempt + i)%nat = CRaise e) ->
  func (attempt + j)%nat = CReturn a ->
  execute_go func fuel attempt max_retries base_delay last =
    {| xres := XReturn a; xcalls := S j;
       xsleeps := List.map (fun i => (base_delay * 2 ^ Z.of_nat (attempt + i))%Z) (seq 0 j) |}.
Proof.
  induction j as [|j IH]; intros fuel attempt max_retries last a Hj Hmax Hfail Hok.
  - destruct fuel as [|fuel]; [lia|]. rewrite Nat.add_0_r in Hok.
    simpl. rewrite Hok. reflexivity.
  - destruct fuel as [|fuel]; [lia|].
    destruct (Hfail 0%nat ltac:(lia)) as [e He]. rewrite Nat.add_0_r in He.
    simpl. rewrite He.
    rewrite (IH fuel (S attempt) max_retries (Some e) a ltac:(lia) ltac:(lia)).
    + replace (attempt <? max_retries - 1)%nat with true
        by (symmetry; apply Nat.ltb_lt; lia).
      simpl. rewrite Nat.add_0_r. f_equal. f_equal.
      rewrite <- seq_shift, List.map_map. apply List.map_ext. intros i. do 3 f_equal. lia.
    + intros i Hi. destruct (Hfail (S i) ltac:(lia)) as [e' He'].
      exists e'. rewrite <- He'. f_equal. lia.
    + rewrite <- Hok. f_equal. lia.
Qed.

Lemma execute_go_exhausted {A} (func : nat -> call_result A) (base_delay : Z) (k : nat) :
  forall attempt max_retries last,
  (attempt + S k = max_retries)%nat ->
  (forall i, (i < S k)%nat -> exists e, func (attempt + i)%nat = CRaise e) ->
  exists e, func (attempt + k)%nat = CRaise e /\
    execute_go func (S k) attempt max_retries base_delay last =
      {| xres := XRaise e; xcalls := S k;
         xsleeps := List.map (fun i => (base_delay * 2 ^ Z.of_nat (attempt + i))%Z) (seq 0 k) |}.
Proof.
  induction k as [|k IH]; intros attempt max_retries last Hmax Hfail.
  - destruct (Hfail 0%nat ltac:(lia)) as [e He]. rewrite Nat.add_0_r in He.
    exists e. rewrite Nat.add_0_r. split; [exact He|].
    simpl. rewrite He.
    replace (attempt <? max_retries - 1)%nat with false
      by (symmetry; apply Nat.ltb_ge; lia).
    reflexivity.
  - destruct (Hfail 0%nat ltac:(lia)) as [e0 He0]. rewrite Nat.add_0_r in He0.
    destruct (IH (S attempt) max_retries (Some e0) ltac:(lia)) as [e [He Hrest]].
    { intros i Hi. destruct (Hfail (S i) ltac:(lia)) as [e' He'].
      exists e'. rewrite <- He'. f_equal. lia. }
    exists e. split; [rewrite <- He; f_equal; lia|].
    rewrite execute_go_S, He0. cbv zeta. rewrite Hrest.
    replace (attempt <? max_retries - 1)%nat with true
      by (symmetry; apply Nat.ltb_lt; lia).
    simpl. rewrite Nat.add_0_r. f_equal. f_equal.
    rewrite <- seq_shift, List.map_map. apply List.map_ext. intros i. do 3 f_equal. lia.
Qed.

(** [RetryStrategy.execute] retries every exception, not only network
    errors: the first successful call is returned after [j] failed ones
    and [j] delays [base_delay * 2 ^ i]; when all [max_retries] calls
    raise, the last exception is raised after [max_retries - 1] delays;
    with [max_retries = 0] nothing is called and [raise None] fails. *)
Theorem retry_strategy_execute {A} (func : nat -> call_result A) (max_retries : nat)
    (base_delay : Z) :
  (max_retries = 0%nat ->
   execute func max_retries base_delay =
     {| xres := XRaise raise_none; xcalls := 0; xsleeps := [] |}) /\
  (forall j a, (j < max_retries)%nat ->
     (forall i, (i < j)%nat -> exists e, func i = CRaise e) -> func j = CReturn a ->
     execute func max_retries base_delay =
       {| xres := XReturn a; xcalls := S j;
          xsleeps := List.map (fun i => (base_delay * 2 ^ Z.of_nat i)%Z) (seq 0 j) |}) /\
  ((0 < max_retries)%nat ->
   (forall i, (i < max_retries)%nat -> exists e, func i = CRaise e) ->
   exists e, func (max_retries - 1)%nat = CRaise e /\
     execute func max_retries base_delay =
       {| xres := XRaise e; xcalls := max_retries;
          xsleeps := List.map (fun i => (base_delay * 2 ^ Z.of_nat i)%Z)
                       (seq 0 (max_retries - 1)) |}).
Proof.
  split; [|split].
  - intros ->. reflexivity.
  - intros j a Hj Hfail Hok. unfold execute.
    apply (execute_go_recovers func base_delay j max_retries 0 max_retries None a Hj
             ltac:(lia) Hfail Hok).
  - intros Hpos Hfail. destruct max_retries as [|k]; [lia|].
    destruct (execute_go_exhausted func base_delay k 0 (S k) None ltac:(lia) Hfail)
      as [e [He Hrun]].
    exists e. simpl Nat.sub. rewrite Nat.sub_0_r. split; [exact He|]. exact Hrun.
Qed.

(** [build_image] never retries: [_build_image_internal] reports every
    failure as a returned dict, so the retry strategy calls it exactly
    once and [build_image] returns that first dict, failed or not. *)
Theorem build_image_single_attempt (internal : nat -> build_dict) :
  build_image internal = (internal 0%nat, 1%nat).
Proof. reflexivity. Qed.

Lemma filter_nil_iff {A} (f : A -> bool) (l : list A) :
  List.filter f l = [] <-> List.Forall (fun x => f x = false) l.
Proof.
  induction l as [|x l IH]; simpl.
  - split; auto.
  - destruct (f x) eqn:E.
    + split; [discriminate|]. intros H. inversion H; congruence.
    + rewrite IH. split; [intros H; constructor; auto|]. intros H. inversion H; auto.
Qed.

(** [gcloud_service.py] never imports [subprocess]: whatever the
    [gcloud logging read] command would do, [get_service_logs] returns the
    single entry made from the [NameError], and [_handle_get_logs] (Google
    Cloud configured) answers with a plain message whose only log entry is
    that text. *)
Theorem get_logs_always_name_error (service_name : string) (r : proc_result) :
  get_service_logs r = ["Log fetch error: name 'subprocess' is not defined"] /\
  lr_type (_handle_get_logs true service_name r) = TMessage /\
  lr_logs (_handle_get_logs true service_name r) =
    Some ["Log fetch error: name 'subprocess' is not defined"].
Proof. split; [|split]; reflexivity. Qed.

Lemma lower_char_idem (c : ascii) : Py.lower_char (Py.lower_char c) = Py.lower_char c.
Proof.
  unfold Py.lower_char.
  destruct ((65 <=? nat_of_ascii c) && (nat_of_ascii c <=? 90))%nat eqn:E.
  - apply andb_true_iff in E as [E1 E2]. apply Nat.leb_le in E1, E2.
    rewrite nat_ascii_embedding by lia.
    replace ((65 <=? nat_of_ascii c + 32) && (nat_of_ascii c + 32 <=? 90))%nat with false
      by (symmetry; apply andb_false_iff; right; apply Nat.leb_gt; lia).
    reflexivity.
  - rewrite E. reflexivity.
Qed.

Lemma chars_all_impl (P Q : ascii -> bool) (s : string) :
  (forall c, P c = true -> Q c = true) -> chars_all P s = true -> chars_all Q s = true.
Proof.
  intros H. unfold chars_all. rewrite !forallb_forall. intros HP x Hx. apply H, HP, Hx.
Qed.

Lemma lower_all_lower (s : string) :
  chars_all (fun c => Ascii.eqb (Py.lower_char c) c) (Py.lower s) = true.
Proof.
  induction s as [|c s IH]; [reflexivity|].
  simpl. unfold chars_all in *. simpl. rewrite lower_char_idem, Ascii.eqb_refl. exact IH.
Qed.

Lemma substring_full (s : string) : substring 0 (String.length s) s = s.
Proof. induction s as [|c s IH]; simpl; congruence. Qed.

Lemma replace_underscore_all (P : ascii -> bool) (fuel : nat) :
  forall s, (String.length s <= fuel)%nat -> P "-"%char = true -> chars_all P s = true ->
  chars_all (fun c => P c && negb (Ascii.eqb c "_")) (Py.replace_aux fuel "_" "-" s) = true.
Proof.
  induction fuel as [|fuel IH]; intros s Hlen Hdash Hs.
  - destruct s; [reflexivity|simpl in Hlen; lia].
  - destruct s as [|c r]; [reflexivity|].
    rewrite replace_aux_cons, prefix_cons.
    unfold chars_all in Hs. simpl in Hs. apply andb_true_iff in Hs as [Hc Hr].
    destruct (ascii_dec "_" c) as [<-|Hne].
    + replace (String.prefix "" r) with true by (destruct r; reflexivity).
      simpl String.length. replace (S (String.length r) - 1)%nat with (String.length r) by lia.
      change (substring 1 (String.length r) (String "_" r)) with (substring 0 (String.length r) r).
      rewrite substring_full. simpl. unfold chars_all. simpl.
      rewrite Hdash. simpl. apply IH; [simpl in Hlen; lia|exact Hdash|exact Hr].
    + unfold chars_all. simpl. rewrite Hc.
      replace (Ascii.eqb c "_") with false
        by (symmetry; apply Ascii.eqb_neq; intros ->; apply Hne; reflexivity).
      apply IH; [simpl in Hlen; lia|exact Hdash|exact Hr].
Qed.

Lemma substring_prefix_all (P : ascii -> bool) (n : nat) (s : string) :
  chars_all P s = true ->
  chars_all P (substring 0 n s) = true /\ (String.length (substring 0 n s) <= n)%nat.
Proof.
  revert n. induction s as [|c s IH]; intros n Hs.
  - destruct n; simpl; split; auto; lia.
  - destruct n as [|n]; [simpl; split; auto|].
    unfold chars_all in *. simpl in *. apply andb_true_iff in Hs as [Hc Hs].
    destruct (IH n Hs) as [H1 H2]. rewrite Hc. simpl. split; [exact H1|lia].
Qed.

Lemma lower_fixed (s : string) :
  chars_all (fun c => Ascii.eqb (Py.lower_char c) c) s = true -> Py.lower s = s.
Proof.
  induction s as [|c s IH]; [reflexivity|].
  unfold chars_all. simpl. intros H. apply andb_true_iff in H as [Hc Hs].
  apply Ascii.eqb_eq in Hc. rewrite Hc, IH; [reflexivity|exact Hs].
Qed.

Lemma no_underscore (s : string) :
  chars_all (fun c => negb (Ascii.eqb c "_")) s = true -> Py.contains "_" s = false.
Proof.
  induction s as [|c s IH]; [reflexivity|].
  unfold chars_all. cbn [list_ascii_of_string forallb]. intros H.
  apply andb_true_iff in H as [Hc Hs].
  rewrite contains_cons, prefix_cons.
  destruct (ascii_dec "_" c) as [<-|_]; [discriminate|]. apply IH, Hs.
Qed.

(** The Cloud Run service name built by [deploy_to_cloudrun] is at most 63
    characters long, all lowercase, and has no underscore, whatever the
    service name and user id passed. *)
Theorem unique_service_name_normalised (service_name : string) (user_id : option string) :
  (String.length (unique_service_name service_name user_id) <= 63)%nat /\
  Py.lower (unique_service_name service_name user_id) = unique_service_name service_name user_id /\
  Py.contains "_" (unique_service_name service_name user_id) = false.
Proof.
  unfold unique_service_name.
  set (n := match user_id with
            | Some u => if String.eqb u "" then service_name else u ++ "-" ++ service_name
            | None => service_name
            end).
  set (P := fun c => Ascii.eqb (Py.lower_char c) c).
  assert (H1 : chars_all (fun c => P c && negb (Ascii.eqb c "_"))
                 (Py.replace "_" "-" (Py.lower n)) = true).
  { unfold Py.replace. apply replace_underscore_all; [lia|reflexivity|apply lower_all_lower]. }
  destruct (substring_prefix_all _ 63 _ H1) as [H2 H3].
  split; [exact H3|]. split.
  - apply lower_fixed. revert H2. apply chars_all_impl.
    intros c Hc. apply andb_true_iff in Hc as [Hc _]. exact Hc.
  - apply no_underscore. revert H2. apply chars_all_impl.
    intros c Hc. apply andb_true_iff in Hc as [_ Hc]. exact Hc.
Qed.

End CloudProofs.

(** ** The context prefix of a user message *)

Section ContextProofs.
Import Orchestrator.

(** The context prefix is empty exactly when the session has no project
    path, and with no project path the user message is sent unchanged. *)
Theorem context_prefix_empty_iff_no_path (c : project_context) (user_message : string) :
  (_build_context_prefix c = "" <-> project_path c = None) /\
  (project_path c = None -> enhanced_message c user_message = user_message).
Proof.
  split.
  - unfold _build_context_prefix. destruct (project_path c) as [pp|].
    + split; [simpl; discriminate|discriminate].
    + split; reflexivity.
  - intros Hp. unfold enhanced_message, has_project_path, _build_context_prefix.
    rewrite Hp, andb_false_r. reflexivity.
Qed.

End ContextProofs.

(** ** Health checks: the result kept by the retry loop *)

Section HealthExtras.
Import Health HealthIO.

Lemma wait_go_first_success (probes : nat -> probe) (codes : list Z) (j : nat) :
  forall fuel attempt last, (j < fuel)%nat ->
  (forall i, (i < j)%nat -> success (_perform_health_check codes (probes (attempt + i)%nat)) = false) ->
  success (_perform_health_check codes (probes (attempt + j)%nat)) = true ->
  wait_go probes codes fuel attempt last = _perform_health_check codes (probes (attempt + j)%nat).
Proof.
  induction j as [|j IH]; intros fuel attempt last Hj Hfail Hok;
    (destruct fuel as [|fuel]; [lia|]); cbn [wait_go].
  - rewrite Nat.add_0_r in Hok |- *. rewrite Hok. reflexivity.
  - pose proof (Hfail 0%nat ltac:(lia)) as H0. rewrite Nat.add_0_r in H0. rewrite H0.
    replace (attempt + S j)%nat with (S attempt + j)%nat in * by lia.
    apply IH; [lia| |exact Hok].
    intros i Hi. replace (S attempt + i)%nat with (attempt + S i)%nat by lia. apply Hfail. lia.
Qed.

Lemma wait_go_all_fail (probes : nat -> probe) (codes : list Z) (k : nat) :
  forall attempt last,
  (forall i, (i < S k)%nat -> success (_perform_health_check codes (probes (attempt + i)%nat)) = false) ->
  wait_go probes codes (S k) attempt last = _perform_health_check codes (probes (attempt + k)%nat).
Proof.
  induction k as [|k IH]; intros attempt last Hfail; cbn [wait_go].
  - pose proof (Hfail 0%nat ltac:(lia)) as H0. rewrite Nat.add_0_r in H0 |- *.
    rewrite H0. reflexivity.
  - pose proof (Hfail 0%nat ltac:(lia)) as H0. rewrite Nat.add_0_r in H0. rewrite H0.
    replace (attempt + S k)%nat with (S attempt + k)%nat by lia.
    change (wait_go probes codes (S k) (S attempt) (Some (_perform_health_check codes (probes attempt))) =
            _perform_health_check codes (probes (S attempt + k)%nat)).
    apply IH. intros i Hi. replace (S attempt + i)%nat with (attempt + S i)%nat by lia.
    apply Hfail. lia.
Qed.

(** [wait_for_service_ready] returns the result of the first attempt that
    succeeds; when every one of its [max_retries] attempts fails it
    returns the result of the last attempt, whose status code (or missing
    response) is thus the one reported. *)
Theorem wait_for_service_ready_kept_result (probes : nat -> probe) (max_retries : nat)
    (expected_status_codes : option (list Z)) :
  let codes := match expected_status_codes with None => default_status_codes | Some l => l end in
  (forall j, (j < max_retries)%nat ->
     (forall i, (i < j)%nat -> success (_perform_health_check codes (probes i)) = false) ->
     success (_perform_health_check codes (probes j)) = true ->
     wait_for_service_ready probes max_retries expected_status_codes =
       _perform_health_check codes (probes j)) /\
  ((0 < max_retries)%nat ->
   (forall i, (i < max_retries)%nat -> success (_perform_health_check codes (probes i)) = false) ->
   wait_for_service_ready probes max_retries expected_status_codes =
     _perform_health_check codes (probes (max_retries - 1)%nat)).
Proof.
  intros codes. split.
  - intros j Hj Hfail Hok. unfold wait_for_service_ready. fold codes.
    apply (wait_go_first_success probes codes j max_retries 0 None Hj Hfail Hok).
  - intros Hpos Hfail. unfold wait_for_service_ready. fold codes.
    destruct max_retries as [|k]; [lia|]. simpl Nat.sub. rewrite Nat.sub_0_r.
    apply (wait_go_all_fail probes codes k 0 None Hfail).
Qed.

Lemma wait_go_success_status (probes : nat -> probe) (codes : list Z) (fuel : nat) :
  forall attempt last,
  match last with Some r => success r = false | None => True end ->
  success (wait_go probes codes fuel attempt last) = true ->
  exists c, status_code (wait_go probes codes fuel attempt last) = Some c /\ In c codes.
Proof.
  induction fuel as [|fuel IH]; intros attempt last Hlast; cbn [wait_go].
  - destruct last as [r|]; [rewrite Hlast|]; discriminate.
  - destruct (success (_perform_health_check codes (probes attempt))) eqn:E.
    + intros _. apply perform_success in E as [c [Hp Hin]].
      exists c. rewrite Hp. split; [reflexivity|exact Hin].
    + apply IH. exact E.
Qed.

(** [verify_url_accessibility] reports the URL accessible exactly when one
    of its attempts gets a status in 200, 204, 301, 302; then DNS and the
    connection are reported fine and that status is the one returned. *)
Theorem url_accessible_iff_good_status (probes : nat -> probe) (max_retries : nat) :
  (accessible (verify_url_accessibility probes max_retries) = true <->
   exists i, (i < max_retries)%nat /\ exists c, probes i = Status c /\ In c default_status_codes) /\
  (accessible (verify_url_accessibility probes max_retries) = true ->
   dns_resolved (verify_url_accessibility probes max_retries) = true /\
   connection_established (verify_url_accessibility probes max_retries) = true /\
   exists c, acc_status (verify_url_accessibility probes max_retries) = Some c /\
             In c default_status_codes).
Proof.
  unfold verify_url_accessibility, wait_for_service_ready. cbn [accessible dns_resolved
    connection_established acc_status].
  split.
  - rewrite (wait_go_success probes default_status_codes max_retries 0 None I).
    split; intros [i [Hi H]]; exists i; split; auto; lia.
  - intros H. destruct (wait_go_success_status probes default_status_codes max_retries 0 None I H)
      as [c [Hc Hin]].
    rewrite Hc. split; [reflexivity|]. split; [reflexivity|]. exists c. split; [reflexivity|exact Hin].
Qed.

End HealthExtras.

(** ** WebSocket sends *)

Section WsProofs.
Import Ws WsObs.

Lemma safe_send_not_connected (oracle : nat -> send_outcome) (sid : string) (w : ws) :
  match conns w !! sid with Some CONNECTED => False | _ => True end ->
  safe_send_json oracle sid w = (false, w).
Proof.
  intros H. unfold safe_send_json. destruct (conns w !! sid) as [[]|]; easy.
Qed.

Lemma safe_send_benign (oracle : nat -> send_outcome) (sid : string) (w : ws) :
  conns w !! sid = Some CONNECTED -> benign (oracle (sent w)) ->
  safe_send_json oracle sid w =
    (is_ok (oracle (sent w)), {| conns := conns w; sent := S (sent w); slept_ms := slept_ms w |}).
Proof.
  intros Hc Hb. unfold safe_send_json. rewrite Hc.
  destruct (oracle (sent w)) as [|m|m]; simpl in Hb |- *; [reflexivity| |reflexivity].
  rewrite Hb. reflexivity.
Qed.

(** [broadcast_to_session] to a session that is not connected (unknown,
    or in a state other than CONNECTED) sends nothing, sleeps 0.5 s twice
    and returns False. *)
Theorem broadcast_not_connected (oracle : nat -> send_outcome) (sid : string) (w : ws) :
  match conns w !! sid with Some CONNECTED => False | _ => True end ->
  broadcast_to_session oracle sid w =
    (false, {| conns := conns w; sent := sent w; slept_ms := (slept_ms w ++ [500%Z; 500%Z])%list |}).
Proof.
  intros H. unfold broadcast_to_session. cbn [broadcast_go].
  rewrite (safe_send_not_connected _ _ _ H). cbn - [safe_send_json].
  rewrite safe_send_not_connected by exact H. cbn - [safe_send_json].
  rewrite safe_send_not_connected by exact H. cbn.
  rewrite <- app_assoc. reflexivity.
Qed.

(** When the first send to a connected session fails because the socket
    is closing, [broadcast_to_session] removes the session from the
    active connections, does not send again and returns False after two
    0.5 s sleeps. *)
Theorem broadcast_close_error_drops_session (oracle : nat -> send_outcome) (sid : string)
    (w : ws) (m : string) :
  conns w !! sid = Some CONNECTED ->
  oracle (sent w) = SendRuntimeError m ->
  Py.contains "close message has been sent" m = true ->
  broadcast_to_session oracle sid w =
    (false, {| conns := delete sid (conns w); sent := S (sent w);
               slept_ms := (slept_ms w ++ [500%Z; 500%Z])%list |}).
Proof.
  intros Hc Ho Hm. unfold broadcast_to_session. cbn [broadcast_go].
  assert (E : safe_send_json oracle sid w =
              (false, {| conns := delete sid (conns w); sent := S (sent w);
                         slept_ms := slept_ms w |})).
  { unfold safe_send_json. rewrite Hc, Ho, Hm. reflexivity. }
  rewrite E. cbn - [safe_send_json].
  rewrite safe_send_not_connected by (cbn; rewrite lookup_delete_eq; exact I).
  cbn - [safe_send_json].
  rewrite safe_send_not_connected by (cbn; rewrite lookup_delete_eq; exact I).
  cbn. rewrite <- app_assoc. reflexivity.
Qed.

(** For a connected session whose sends do not hit a closing socket,
    [broadcast_to_session] returns True exactly when one of its three
    attempts succeeds. *)
Theorem broadcast_connected_succeeds_iff (oracle : nat -> send_outcome) (sid : string) (w : ws) :
  conns w !! sid = Some CONNECTED ->
  (forall i, (i < 3)%nat -> benign (oracle (sent w + i)%nat)) ->
  fst (broadcast_to_session oracle sid w) = true <->
  exists i, (i < 3)%nat /\ oracle (sent w + i)%nat = SendOk.
Proof.
  intros Hc Hb.
  pose proof (Hb 0%nat ltac:(lia)) as B0. rewrite Nat.add_0_r in B0.
  pose proof (Hb 1%nat ltac:(lia)) as B1. rewrite Nat.add_1_r in B1.
  pose proof (Hb 2%nat ltac:(lia)) as B2. replace (sent w + 2)%nat with (S (S (sent w))) in B2 by lia.
  assert (E : fst (broadcast_to_session oracle sid w) =
              is_ok (oracle (sent w)) || is_ok (oracle (S (sent w))) ||
              is_ok (oracle (S (S (sent w))))).
  { unfold broadcast_to_session. cbn [broadcast_go].
    rewrite (safe_send_benign _ _ _ Hc B0).
    destruct (is_ok (oracle (sent w))); [reflexivity|]. cbn - [safe_send_json].
    rewrite safe_send_benign by assumption. cbn [sent conns slept_ms].
    destruct (is_ok (oracle (S (sent w)))); [reflexivity|]. cbn - [safe_send_json].
    rewrite safe_send_benign by assumption. cbn [sent conns slept_ms].
    destruct (is_ok (oracle (S (S (sent w))))); reflexivity. }
  rewrite E.
  assert (Hok : forall o, is_ok o = true <-> o = SendOk) by (intros []; simpl; split; congruence).
  rewrite !orb_true_iff, !Hok. split.
  - intros [[H|H]|H]; [exists 0%nat|exists 1%nat|exists 2%nat];
      (split; [lia|]); rewrite <- H; f_equal; lia.
  - intros [i [Hi H]]. destruct i as [|[|[|i]]]; [| | |lia];
      [left; left|left; right|right]; rewrite <- H; f_equal; lia.
Qed.

End WsProofs.

(** ** Model broker: quota errors and recovered network errors *)

Section BrokerExtras.
Import Orchestrator BrokerObs.
Variable oracle : nat -> outcome.

(** A quota error on the primary model when no backup can be used (the
    session is already on the Gemini API, or no Gemini key is set) ends the
    send after that single request, with no delay, no backup request and no
    change to the session; the error tells the user what to do. *)
Theorem quota_error_without_backup (msg : string) (s : state) (c : chat) (e : string) :
  chat_session s = Some c -> oracle (clock s) = Err e ->
  is_network_error e = false -> is_quota_error e = true ->
  use_vertex_ai s && has_api_key s = false ->
  _send_with_fallback oracle msg s =
    (Err (if negb (has_api_key s)
          then "Vertex AI quota exhausted. Please add a Gemini API key in Settings to continue."
          else "Gemini API quota exhausted. Please wait a few minutes and try again."),
     tick (with_events s (events s ++ [Request (chat_ep c) (history c) msg])%list)).
Proof.
  intros Hc Ho Hn Hq Hb. unfold _send_with_fallback. rewrite bind_apply.
  unfold _retry_with_backoff. rewrite (retry_non_network oracle msg s c e 1 0 2 1 Hc Ho Hn).
  cbn [fst snd]. rewrite Hq. rewrite bind_apply. unfold get. cbn [fst snd].
  change (use_vertex_ai (tick (with_events s (events s ++ [Request (chat_ep c) (history c) msg])%list)))
    with (use_vertex_ai s).
  change (has_api_key (tick (with_events s (events s ++ [Request (chat_ep c) (history c) msg])%list)))
    with (has_api_key s).
  rewrite Hb. destruct (negb (has_api_key s)); reflexivity.
Qed.

(** When the primary model hits a quota error and the backup request
    fails too, the combined error is returned and nothing switches: the
    session keeps the primary endpoint, its chat and its model; two
    requests were made, the second on an empty Gemini API history. *)
Theorem backup_failure_keeps_primary (msg : string) (s : state) (c : chat) (e fe : string) :
  chat_session s = Some c -> oracle (clock s) = Err e ->
  is_network_error e = false -> is_quota_error e = true ->
  use_vertex_ai s = true -> has_api_key s = true ->
  oracle (S (clock s)) = Err fe ->
  _send_with_fallback oracle msg s =
    (Err ("Both Vertex AI and Gemini API failed. Gemini API error: " ++ fe),
     {| ctx := ctx s; use_vertex_ai := true; has_api_key := true; model_ep := model_ep s;
        chat_session := Some c; clock := S (S (clock s));
        events := (events s ++ [Request (chat_ep c) (history c) msg;
                                Progress "Vertex AI quota exhausted. Switching to backup AI service...";
                                Request GeminiAPI [] msg])%list |}).
Proof.
  intros Hc Ho Hn Hq Hv Hk Hf. unfold _send_with_fallback. rewrite bind_apply.
  unfold _retry_with_backoff. rewrite (retry_non_network oracle msg s c e 1 0 2 1 Hc Ho Hn).
  cbn [fst snd]. rewrite Hq. rewrite bind_apply. unfold get. cbn [fst snd].
  change (use_vertex_ai (tick (with_events s (events s ++ [Request (chat_ep c) (history c) msg])%list)))
    with (use_vertex_ai s).
  change (has_api_key (tick (with_events s (events s ++ [Request (chat_ep c) (history c) msg])%list)))
    with (has_api_key s).
  rewrite Hv, Hk. cbn [andb]. rewrite bind_apply. unfold tell. cbn [fst snd].
  rewrite bind_apply. unfold request. cbn [fst snd clock with_events tick]. rewrite Hf.
  unfold ret. cbn. rewrite <- !app_assoc. destruct s; cbn in *; subst; reflexivity.
Qed.

Lemma send_message_ok (msg : string) (s : state) (c : chat) (r : response) :
  chat_session s = Some c -> oracle (clock s) = Ok r ->
  send_message oracle msg s =
    (Ok r, with_chat (tick (with_events s (events s ++ [Request (chat_ep c) (history c) msg])%list))
             (Some {| chat_ep := chat_ep c; history := (history c ++ [msg; resp_text r])%list |})).
Proof.
  intros Hc Ho. unfold send_message, bind, get, request, put, ret.
  rewrite Hc. simpl. rewrite Ho. reflexivity.
Qed.

Lemma retry_recovers (msg : string) (base_delay : Z) (r : response) (j : nat) :
  forall (fuel attempt max_retries : nat) (s : state) (c : chat),
  chat_session s = Some c -> (j < fuel)%nat -> (attempt + fuel = max_retries)%nat ->
  (forall i, (i < j)%nat ->
     exists e, oracle (clock s + i) = Err e /\ is_network_error e = true) ->
  oracle (clock s + j) = Ok r ->
  exists new,
    events (snd (retry_go (send_message oracle msg) fuel attempt max_retries base_delay s))
      = (events s ++ new)%list /\
    fst (retry_go (send_message oracle msg) fuel attempt max_retries base_delay s) = Ok r /\
    request_count new = S j /\
    sleeps new = List.map (fun i => (base_delay * 2 ^ Z.of_nat (attempt + i))%Z) (seq 0 j) /\
    chat_session (snd (retry_go (send_message oracle msg) fuel attempt max_retries base_delay s))
      = Some {| chat_ep := chat_ep c; history := (history c ++ [msg; resp_text r])%list |}.
Proof.
  induction j as [|j IH]; intros fuel attempt max_retries s c Hc Hj Hmax Hall Hok.
  - destruct fuel as [|fuel]; [lia|]. rewrite Nat.add_0_r in Hok.
    cbn [retry_go]. rewrite bind_apply, (send_message_ok msg s c r Hc Hok). cbn [fst snd].
    exists [Request (chat_ep c) (history c) msg]. repeat split; reflexivity.
  - destruct fuel as [|fuel]; [lia|].
    destruct (Hall 0%nat ltac:(lia)) as [e [Ho Hn]]. rewrite Nat.add_0_r in Ho.
    set (pre := [Request (chat_ep c) (history c) msg;
                 Progress "Network issue detected, retrying...";
                 Sleep (base_delay * 2 ^ Z.of_nat attempt)%Z]).
    set (s2 := with_events (tick s) (events s ++ pre)%list).
    assert (Hr : retry_go (send_message oracle msg) (S fuel) attempt max_retries base_delay s =
      retry_go (send_message oracle msg) fuel (S attempt) max_retries base_delay s2).
    { cbn [retry_go]. rewrite bind_apply, (send_message_err oracle msg s c e Hc Ho).
      cbn [fst snd].
      replace (Nat.eqb attempt (max_retries - 1)) with false
        by (symmetry; apply Nat.eqb_neq; lia).
      rewrite Hn. cbn [negb orb]. rewrite !bind_apply. unfold tell. cbn [fst snd].
      unfold s2, pre, with_events, tick. cbn. rewrite <- !app_assoc. reflexivity. }
    rewrite Hr.
    destruct (IH fuel (S attempt) max_retries s2 c) as [new [Hev [Hfst [Hcnt [Hsl Hch]]]]].
    + exact Hc.
    + lia.
    + lia.
    + intros i Hi. destruct (Hall (S i) ltac:(lia)) as [e' [Ho' Hn']].
      exists e'. split; [|exact Hn']. rewrite <- Ho'. f_equal. simpl. lia.
    + rewrite <- Hok. f_equal. simpl. lia.
    + rewrite Hev, Hfst, Hch. exists (pre ++ new)%list.
      split; [simpl; rewrite <- !app_assoc; reflexivity|].
      split; [reflexivity|].
      split; [unfold request_count in *; simpl; rewrite Hcnt; reflexivity|].
      split; [|reflexivity].
      unfold sleeps in *. rewrite List.flat_map_app, Hsl. simpl.
      rewrite Nat.add_0_r. f_equal.
      rewrite <- seq_shift, List.map_map. apply List.map_ext. intros i.
      do 3 f_equal. lia.
Qed.

(** [_retry_with_backoff] around [send_message] recovers from network
    errors: after [j] network errors and a reply, within [max_retries]
    attempts, the reply is returned after [j + 1] requests and [j] delays
    [base_delay * 2 ^ i], and the chat history grows by that message and
    reply only once. *)
Theorem retry_recovers_after_network_errors (msg : string) (s : state) (c : chat)
    (max_retries : nat) (base_delay : Z) (j : nat) (r : response) :
  chat_session s = Some c -> (j < max_retries)%nat ->
  (forall i, (i < j)%nat ->
     exists e, oracle (clock s + i) = Err e /\ is_network_error e = true) ->
  oracle (clock s + j) = Ok r ->
  exists new,
    events (snd (_retry_with_backoff (send_message oracle msg) max_retries base_delay s))
      = (events s ++ new)%list /\
    fst (_retry_with_backoff (send_message oracle msg) max_retries base_delay s) = Ok r /\
    request_count new = S j /\
    sleeps new = List.map (fun i => (base_delay * 2 ^ Z.of_nat i)%Z) (seq 0 j) /\
    chat_session (snd (_retry_with_backoff (send_message oracle msg) max_retries base_delay s))
      = Some {| chat_ep := chat_ep c; history := (history c ++ [msg; resp_text r])%list |}.
Proof.
  intros Hc Hj Hall Hok. unfold _retry_with_backoff.
  apply (retry_recovers msg base_delay r j max_retries 0 max_retries s c Hc Hj
           ltac:(lia) Hall Hok).
Qed.

End BrokerExtras.

(** ** Gateway: uploaded environment variables *)

Section GatewayExtras.
Import Gateway.





End GatewayExtras.

(** ** code_analyzer: environment variable names and configuration files *)

Section AnalyzerIOProofs.
Import AnalyzerIO StrObs AnalyzerObs.

Lemma chars_all_app (P : ascii -> bool) (a b : string) :
  chars_all P (a ++ b) = chars_all P a && chars_all P b.
Proof.
  induction a as [|c a IH]; [reflexivity|].
  rewrite append_cons. unfold chars_all in *. cbn [list_ascii_of_string forallb].
  rewrite IH, andb_assoc. reflexivity.
Qed.

Lemma split_on_app_sep (sep : ascii) (a b : string) :
  chars_all (neq_char sep) a = true ->
  Py.split_on sep (a ++ String sep b) = a :: Py.split_on sep b.
Proof.
  induction a as [|c a IH]; intros H.
  - change (EmptyString ++ String sep b) with (String sep b).
    cbn [Py.split_on]. rewrite Ascii.eqb_refl. reflexivity.
  - unfold chars_all in H. cbn [list_ascii_of_string forallb] in H.
    apply andb_true_iff in H as [Hc Ha].
    rewrite append_cons. cbn [Py.split_on]. rewrite IH by exact Ha.
    unfold neq_char in Hc. apply negb_true_iff in Hc. rewrite Hc. reflexivity.
Qed.

Lemma split_on_no_sep (sep : ascii) (a : string) :
  chars_all (neq_char sep) a = true -> Py.split_on sep a = [a].
Proof.
  induction a as [|c a IH]; intros H; [reflexivity|].
  unfold chars_all in H. cbn [list_ascii_of_string forallb] in H.
  apply andb_true_iff in H as [Hc Ha].
  cbn [Py.split_on]. rewrite IH by exact Ha.
  unfold neq_char in Hc. apply negb_true_iff in Hc. rewrite Hc. reflexivity.
Qed.

Lemma split_on_join (sep : ascii) (l : list string) :
  l <> [] -> Forall (fun x => chars_all (neq_char sep) x = true) l ->
  Py.split_on sep (Py.join (String sep EmptyString) l) = l.
Proof.
  induction l as [|x l IH]; intros Hne Hall; [congruence|].
  inversion Hall as [|? ? Hx Hl]; subst.
  destruct l as [|y l].
  - apply split_on_no_sep, Hx.
  - change (Py.join (String sep EmptyString) (x :: y :: l))
      with (x ++ (String sep EmptyString ++ Py.join (String sep EmptyString) (y :: l))).
    change (String sep EmptyString ++ Py.join (String sep EmptyString) (y :: l))
      with (String sep (Py.join (String sep EmptyString) (y :: l))).
    rewrite split_on_app_sep by exact Hx.
    rewrite IH by (auto; discriminate). reflexivity.
Qed.

Lemma append_nonempty (a : string) (c : ascii) (b : string) :
  String.eqb (a ++ String c b) "" = false.
Proof. destruct a; reflexivity. Qed.

Lemma rstrip_app_nonspace (a : string) (c : ascii) (b : string) :
  Py.is_space c = false -> Py.rstrip (a ++ String c b) = a ++ String c (Py.rstrip b).
Proof.
  intros Hc. induction a as [|c' a IH].
  - change (EmptyString ++ String c b) with (String c b).
    cbn [Py.rstrip]. rewrite Hc, andb_false_r. reflexivity.
  - rewrite append_cons. cbn [Py.rstrip]. rewrite IH, append_nonempty. reflexivity.
Qed.

Lemma rstrip_nonspace (k : string) :
  chars_all (fun c => negb (Py.is_space c)) k = true -> Py.rstrip k = k.
Proof.
  induction k as [|c k IH]; intros H; [reflexivity|].
  unfold chars_all in H. cbn [list_ascii_of_string forallb] in H.
  apply andb_true_iff in H as [Hc Hk]. apply negb_true_iff in Hc.
  cbn [Py.rstrip]. rewrite IH by exact Hk. rewrite Hc, andb_false_r. reflexivity.
Qed.

Lemma lstrip_nonspace_head (c : ascii) (s : string) :
  Py.is_space c = false -> Py.lstrip (String c s) = String c s.
Proof. intros Hc. cbn [Py.lstrip]. rewrite Hc. reflexivity. Qed.

Lemma contains_eq_app (a b : string) : Py.contains "=" (a ++ String "=" b) = true.
Proof.
  induction a as [|c a IH].
  - change (EmptyString ++ String "=" b) with (String "=" b).
    rewrite contains_cons, prefix_cons. destruct (ascii_dec "=" "=") as [_|Hn]; [|congruence].
    destruct b; reflexivity.
  - rewrite append_cons, contains_cons. destruct (String.prefix _ _); [reflexivity|exact IH].
Qed.

Lemma env_line_var_kv (k v : string) :
  k <> "" -> chars_all key_char k = true -> String.prefix "#" k = false ->
  env_line_var (k ++ "=" ++ v) = Some k.
Proof.
  intros Hne Hk Hh. destruct k as [|c k']; [congruence|].
  assert (Hk' := Hk). unfold chars_all in Hk'. cbn [list_ascii_of_string forallb] in Hk'.
  apply andb_true_iff in Hk' as [Hc _]. unfold key_char in Hc.
  apply andb_true_iff in Hc as [Hc _]. apply negb_true_iff in Hc.
  assert (Hs : Py.strip (String c k' ++ "=" ++ v) = String c k' ++ String "=" (Py.rstrip v)).
  { unfold Py.strip. rewrite append_cons. rewrite lstrip_nonspace_head by exact Hc.
    change (String c (k' ++ "=" ++ v)) with (String c k' ++ String "=" v).
    apply rstrip_app_nonspace. reflexivity. }
  unfold env_line_var. rewrite Hs, append_nonempty, contains_eq_app.
  rewrite append_cons, prefix_cons. rewrite prefix_cons in Hh.
  destruct (ascii_dec "#" c) as [<-|Hnc].
  - replace (String.prefix "" k') with true in Hh by (destruct k'; reflexivity). discriminate.
  - cbn [negb andb].
    change (String c (k' ++ String "=" (Py.rstrip v))) with (String c k' ++ String "=" (Py.rstrip v)).
    rewrite split_on_app_sep.
    + cbn [List.hd]. unfold Py.strip. rewrite lstrip_nonspace_head by exact Hc.
      rewrite rstrip_nonspace; [reflexivity|].
      revert Hk. apply chars_all_impl. intros x Hx. unfold key_char in Hx.
      apply andb_true_iff in Hx as [Hx _]. exact Hx.
    + revert Hk. apply chars_all_impl. intros x Hx. unfold key_char in Hx.
      apply andb_true_iff in Hx as [_ Hx]. exact Hx.
Qed.

(** An env file written as [KEY=value] lines, one per variable, reads back
    the variable names in order by [_extract_env_vars]'s line rules, when
    the names are non-empty, hold no whitespace and no [=], do not start
    with [#], and the values hold no line break (they may hold [=], [#] or
    spaces); [_extract_env_vars] then returns exactly the set of those
    names when [.env] is the only env file present. *)
Theorem env_file_round_trip (kvs : list (string * string)) :
  Forall (fun kv => fst kv <> "" /\ chars_all key_char (fst kv) = true /\
                    String.prefix "#" (fst kv) = false /\
                    chars_all (neq_char (ascii_of_nat 10)) (snd kv) = true) kvs ->
  let content := Py.join Orchestrator.nl (List.map (fun kv => fst kv ++ "=" ++ snd kv) kvs) in
  file_vars (Text content) = List.map fst kvs /\
  (forall files, files ".env" = Text content -> files ".env.example" = Absent ->
     files ".env.sample" = Absent -> _extract_env_vars files = list_to_set (List.map fst kvs)).
Proof.
  intros Hall content.
  assert (Hfv : file_vars (Text content) = List.map fst kvs).
  { unfold file_vars, content. destruct kvs as [|kv0 kvs0] eqn:Ekvs; [reflexivity|].
    rewrite <- Ekvs in *. unfold Orchestrator.nl.
    rewrite split_on_join.
    - clear Ekvs. induction Hall as [|[k v] kvs' [Hne [Hk [Hh Hv]]] _ IH]; [reflexivity|].
      cbn [List.map List.flat_map fst snd]. rewrite env_line_var_kv by assumption.
      cbn [app]. f_equal. exact IH.
    - subst kvs. discriminate.
    - apply Forall_map. eapply Forall_impl; [exact Hall|].
      intros [k v] [_ [Hk [_ Hv]]]. cbn [fst snd] in *.
      rewrite chars_all_app. apply andb_true_iff. split.
      + revert Hk. apply chars_all_impl. intros x Hx. unfold key_char in Hx.
        apply andb_true_iff in Hx as [Hx _]. unfold neq_char.
        apply negb_true_iff, Ascii.eqb_neq. intros ->. discriminate.
      + exact Hv. }
  split; [exact Hfv|].
  intros files H1 H2 H3. unfold _extract_env_vars, env_files.
  cbn [List.flat_map]. rewrite H1, H2, H3, Hfv. cbn [file_vars]. rewrite !app_nil_r.
  reflexivity.
Qed.

Lemma in_dict_set_inv {V} (k : string) (v : V) (d : list (string * V)) f t :
  In (f, t) (Gateway.dict_set k v d) -> (f = k /\ t = v) \/ In (f, t) d.
Proof.
  induction d as [|[k1 v1] d IH]; cbn [Gateway.dict_set].
  - intros [H|[]]. injection H as -> ->. left; auto.
  - destruct (String.eqb k k1).
    + intros [H|H]; [injection H as -> ->; left; auto|right; right; exact H].
    + intros [H|H]; [right; left; exact H|].
      destruct (IH H) as [?|?]; [left; auto|right; right; auto].
Qed.

Lemma in_dict_set_self {V} (k : string) (v : V) (d : list (string * V)) :
  In (k, v) (Gateway.dict_set k v d).
Proof.
  induction d as [|[k1 v1] d IH]; cbn [Gateway.dict_set]; [left; reflexivity|].
  destruct (String.eqb k k1); [left; reflexivity|right; exact IH].
Qed.

Lemma in_dict_set_other {V} (k : string) (v : V) (d : list (string * V)) f t :
  f <> k -> In (f, t) d -> In (f, t) (Gateway.dict_set k v d).
Proof.
  intros Hne. induction d as [|[k1 v1] d IH]; cbn [Gateway.dict_set]; [intros []|].
  destruct (String.eqb_spec k k1) as [<-|_].
  - intros [H|H]; [injection H as -> ->; congruence|right; exact H].
  - intros [H|H]; [left; exact H|right; apply IH, H].
Qed.

Lemma config_fold (size : string -> option Z) (read : string -> option string)
    (f t : string) (l : list string) :
  forall d, (forall f' t', In (f', t') d -> cc_good size read f' t') ->
  In (f, t) (fold_left
    (fun d f =>
       match size f with
       | Some n =>
           if (n <? 50000)%Z then
             match read f with
             | Some t => Gateway.dict_set f t d
             | None => d
             end
           else d
       | None => d
       end) l d) <->
  In (f, t) d \/ (In f l /\ cc_good size read f t).
Proof.
  induction l as [|a l IH]; intros d Hd; cbn [fold_left].
  - split; [left; exact H|]. intros [H|[[] _]]. exact H.
  - assert (Hgood : forall t0, cc_good size read a t0 ->
              forall f' t', In (f', t') (Gateway.dict_set a t0 d) -> cc_good size read f' t').
    { intros t0 Ht0 f' t' Hin. destruct (in_dict_set_inv _ _ _ _ _ Hin) as [[-> ->]|H];
        [exact Ht0|apply Hd, H]. }
    destruct (size a) as [n|] eqn:Es; [destruct (n <? 50000)%Z eqn:En|].
    + destruct (read a) as [t0|] eqn:Er.
      * assert (Ht0 : cc_good size read a t0) by (exists n; split; [|split]; auto; lia).
        rewrite (IH _ (Hgood t0 Ht0)). split.
        -- intros [H|[Hl Hg]].
           ++ destruct (in_dict_set_inv _ _ _ _ _ H) as [[-> ->]|H'];
                [right; split; [left; reflexivity|exact Ht0]|left; exact H'].
           ++ right. split; [right; exact Hl|exact Hg].
        -- intros [H|[[<-|Hl] Hg]].
           ++ left. destruct (String.eqb_spec f a) as [->|Hne].
              ** destruct (Hd _ _ H) as [n' [_ [_ Hr]]]. rewrite Er in Hr.
                 injection Hr as ->. apply in_dict_set_self.
              ** apply in_dict_set_other; assumption.
           ++ left. destruct Hg as [n' [_ [_ Hr]]]. rewrite Er in Hr.
              injection Hr as ->. apply in_dict_set_self.
           ++ right. split; assumption.
      * rewrite (IH _ Hd). split.
        -- intros [H|[Hl Hg]]; [left; exact H|right; split; [right; exact Hl|exact Hg]].
        -- intros [H|[[<-|Hl] Hg]]; [left; exact H| |right; split; assumption].
           destruct Hg as [n' [_ [_ Hr]]]. congruence.
    + rewrite (IH _ Hd). split.
      * intros [H|[Hl Hg]]; [left; exact H|right; split; [right; exact Hl|exact Hg]].
      * intros [H|[[<-|Hl] Hg]]; [left; exact H| |right; split; assumption].
        destruct Hg as [n' [Hs [Hlt _]]]. rewrite Es in Hs. injection Hs as <-.
        apply Z.ltb_ge in En. lia.
    + rewrite (IH _ Hd). split.
      * intros [H|[Hl Hg]]; [left; exact H|right; split; [right; exact Hl|exact Hg]].
      * intros [H|[[<-|Hl] Hg]]; [left; exact H| |right; split; assumption].
        destruct Hg as [n' [Hs _]]. congruence.
Qed.

(** The configuration contents put in the analysis prompt are exactly the
    files among the first 10 configuration files whose size can be read
    and is below 50000 bytes and whose text can be read, each with that
    text; every other file, and every failure, is skipped silently. *)
Theorem config_contents_exact (size : string -> option Z) (read : string -> option string)
    (config_files : list string) (f t : string) :
  In (f, t) (config_contents size read config_files) <->
  In f (firstn 10 config_files) /\
  exists n, size f = Some n /\ (n < 50000)%Z /\ read f = Some t.
Proof.
  unfold config_contents. rewrite (config_fold size read f t _ [] ltac:(intros ? ? [])).
  unfold cc_good. split; [intros [[]|H]; exact H|intros H; right; exact H].
Qed.

End AnalyzerIOProofs.

(** ** code_analyzer: the directory scan *)

Section ScanProofs.
Import Analyzer.

Lemma walk_prefix : forall (e : entry) (parts : list string) (it : list string * bool),
  In it (walk parts e) -> exists rest, fst it = (parts ++ rest)%list.
Proof.
  fix IH 1. intros [n|n cs] parts it Hin.
  - destruct Hin as [<-|[]]. exists [n]. reflexivity.
  - destruct Hin as [<-|Hin]; [exists [n]; reflexivity|].
    revert it Hin. revert cs. fix IHl 1. intros [|c cs'] it Hin; [destruct Hin|].
    apply in_app_or in Hin as [Hin|Hin].
    + destruct (IH c (parts ++ [n])%list it Hin) as [rest Hr].
      exists (n :: rest). rewrite Hr, <- app_assoc. reflexivity.
    + exact (IHl cs' it Hin).
Qed.

(** When a component of the project path itself is one of the excluded
    directory names (a project kept under [.../build/...] or
    [.../vendor/...], say), [_scan_directory] lists no file and no
    configuration file at all: the exclusion test reads the full parts of
    each item, root included. *)
Theorem scan_excluded_root_lists_nothing (root_parts : list string) (children : list entry)
    (max_depth : nat) :
  (exists ex, In ex exclude_dirs /\ In ex root_parts) ->
  files (_scan_directory root_parts children max_depth) = [] /\
  config_files (_scan_directory root_parts children max_depth) = [].
Proof.
  intros [ex [Hex Hroot]].
  assert (Hkeep : List.filter
    (fun it => negb (existsb (fun ex => str_mem ex (fst it)) exclude_dirs) && snd it)
    (rglob root_parts children) = []).
  { apply filter_nil_iff, List.Forall_forall. intros it Hin.
    unfold rglob in Hin. apply in_flat_map in Hin as [e [_ Hin]].
    destruct (walk_prefix e root_parts it Hin) as [rest Hr].
    replace (existsb (fun ex => str_mem ex (fst it)) exclude_dirs) with true; [reflexivity|].
    symmetry. apply existsb_exists. exists ex. split; [exact Hex|].
    unfold str_mem. apply existsb_exists. exists ex. split; [|apply String.eqb_refl].
    rewrite Hr. apply in_or_app. left. exact Hroot. }
  unfold _scan_directory. cbn [files config_files]. rewrite Hkeep. split; reflexivity.
Qed.

(** Every configuration file [_scan_directory] reports is also among the
    files it reports. *)
Theorem scan_config_files_are_files (root_parts : list string) (children : list entry)
    (max_depth : nat) (f : string) :
  In f (config_files (_scan_directory root_parts children max_depth)) ->
  In f (files (_scan_directory root_parts children max_depth)).
Proof.
  unfold _scan_directory. cbn [files config_files].
  intros Hin. apply in_map_iff in Hin as [it [<- Hin]].
  apply filter_In in Hin as [Hin _].
  apply (in_map (fun it => Py.join "/" (List.skipn (List.length root_parts) (fst it)))). exact Hin.
Qed.

End ScanProofs.

(** ** The properties above on concrete inputs *)

Section ExtraInstances.

Lemma broadcast_not_connected_witness :
  Ws.broadcast_to_session (fun _ => Ws.SendOk) "s1"
    {| Ws.conns := {[ "s1" := Ws.CONNECTING ]}; Ws.sent := 0; Ws.slept_ms := [] |} =
    (false, {| Ws.conns := {[ "s1" := Ws.CONNECTING ]}; Ws.sent := 0;
               Ws.slept_ms := [500%Z; 500%Z] |}).
Proof.
  refine (broadcast_not_connected (fun _ => Ws.SendOk) "s1"
           {| Ws.conns := {[ "s1" := Ws.CONNECTING ]}; Ws.sent := 0; Ws.slept_ms := [] |} _).
  vm_compute. exact I.
Defined.

Lemma broadcast_close_error_drops_session_witness :
  Py.contains "close message has been sent"
    "Cannot call send once a close message has been sent." = true /\
  Ws.broadcast_to_session
    (fun n => if Nat.eqb n 0
              then Ws.SendRuntimeError "Cannot call send once a close message has been sent."
              else Ws.SendOk) "s1"
    {| Ws.conns := {[ "s1" := Ws.CONNECTED ]}; Ws.sent := 0; Ws.slept_ms := [] |} =
    (false, {| Ws.conns := delete "s1" {[ "s1" := Ws.CONNECTED ]}; Ws.sent := 1;
               Ws.slept_ms := [500%Z; 500%Z] |}).
Proof.
  split; [vm_compute; reflexivity|].
  refine (broadcast_close_error_drops_session
           (fun n => if Nat.eqb n 0
                     then Ws.SendRuntimeError "Cannot call send once a close message has been sent."
                     else Ws.SendOk) "s1"
           {| Ws.conns := {[ "s1" := Ws.CONNECTED ]}; Ws.sent := 0; Ws.slept_ms := [] |}
           "Cannot call send once a close message has been sent." _ _ _);
    [vm_compute; reflexivity|reflexivity|vm_compute; reflexivity].
Defined.

Lemma broadcast_connected_succeeds_iff_witness :
  fst (Ws.broadcast_to_session
         (fun n => if Nat.eqb n 0 then Ws.SendError "timeout" else Ws.SendOk) "s1"
         {| Ws.conns := {[ "s1" := Ws.CONNECTED ]}; Ws.sent := 0; Ws.slept_ms := [] |}) = true.
Proof.
  refine (proj2 (broadcast_connected_succeeds_iff
           (fun n => if Nat.eqb n 0 then Ws.SendError "timeout" else Ws.SendOk) "s1"
           {| Ws.conns := {[ "s1" := Ws.CONNECTED ]}; Ws.sent := 0; Ws.slept_ms := [] |}
           _ _) _).
  - vm_compute. reflexivity.
  - intros i _. unfold WsObs.benign. cbn [Ws.sent]. destruct (Nat.eqb (0 + i) 0); exact I.
  - exists 1%nat. split; [lia|reflexivity].
Defined.

Lemma quota_error_without_backup_witness :
  Orchestrator._send_with_fallback BrokerExamples.or_quota "deploy my app"
    {| Orchestrator.ctx := BrokerExamples.cloned_ctx; Orchestrator.use_vertex_ai := true;
       Orchestrator.has_api_key := false; Orchestrator.model_ep := Orchestrator.VertexAI;
       Orchestrator.chat_session :=
         Some {| Orchestrator.chat_ep := Orchestrator.VertexAI; Orchestrator.history := [] |};
       Orchestrator.clock := 0; Orchestrator.events := [] |} =
  (Orchestrator.Err "Vertex AI quota exhausted. Please add a Gemini API key in Settings to continue.",
   {| Orchestrator.ctx := BrokerExamples.cloned_ctx; Orchestrator.use_vertex_ai := true;
      Orchestrator.has_api_key := false; Orchestrator.model_ep := Orchestrator.VertexAI;
      Orchestrator.chat_session :=
        Some {| Orchestrator.chat_ep := Orchestrator.VertexAI; Orchestrator.history := [] |};
      Orchestrator.clock := 1;
      Orchestrator.events := [Orchestrator.Request Orchestrator.VertexAI [] "deploy my app"] |}).
Proof.
  exact (quota_error_without_backup BrokerExamples.or_quota "deploy my app"
    {| Orchestrator.ctx := BrokerExamples.cloned_ctx; Orchestrator.use_vertex_ai := true;
       Orchestrator.has_api_key := false; Orchestrator.model_ep := Orchestrator.VertexAI;
       Orchestrator.chat_session :=
         Some {| Orchestrator.chat_ep := Orchestrator.VertexAI; Orchestrator.history := [] |};
       Orchestrator.clock := 0; Orchestrator.events := [] |}
    {| Orchestrator.chat_ep := Orchestrator.VertexAI; Orchestrator.history := [] |}
    "429 Resource exhausted"
    ltac:(reflexivity) ltac:(reflexivity) ltac:(vm_compute; reflexivity)
    ltac:(vm_compute; reflexivity) ltac:(reflexivity)).
Defined.

Lemma backup_failure_keeps_primary_witness :
  Orchestrator._send_with_fallback
    (fun n => match n with
              | O => Orchestrator.Err "429 Resource exhausted"
              | _ => Orchestrator.Err "API key not valid"
              end) "deploy my app" BrokerExamples.s_vertex =
  (Orchestrator.Err "Both Vertex AI and Gemini API failed. Gemini API error: API key not valid",
   {| Orchestrator.ctx := BrokerExamples.cloned_ctx; Orchestrator.use_vertex_ai := true;
      Orchestrator.has_api_key := true; Orchestrator.model_ep := Orchestrator.VertexAI;
      Orchestrator.chat_session :=
        Some {| Orchestrator.chat_ep := Orchestrator.VertexAI; Orchestrator.history := [] |};
      Orchestrator.clock := 2;
      Orchestrator.events :=
        [Orchestrator.Request Orchestrator.VertexAI [] "deploy my app";
         Orchestrator.Progress "Vertex AI quota exhausted. Switching to backup AI service...";
         Orchestrator.Request Orchestrator.GeminiAPI [] "deploy my app"] |}).
Proof.
  exact (backup_failure_keeps_primary
    (fun n => match n with
              | O => Orchestrator.Err "429 Resource exhausted"
              | _ => Orchestrator.Err "API key not valid"
              end) "deploy my app" BrokerExamples.s_vertex
    {| Orchestrator.chat_ep := Orchestrator.VertexAI; Orchestrator.history := [] |}
    "429 Resource exhausted" "API key not valid"
    ltac:(reflexivity) ltac:(reflexivity) ltac:(vm_compute; reflexivity)
    ltac:(vm_compute; reflexivity) ltac:(reflexivity) ltac:(reflexivity) ltac:(reflexivity)).
Defined.

Lemma retry_recovers_after_network_errors_witness :
  fst (Orchestrator._retry_with_backoff
         (Orchestrator.send_message
            (fun n => match n with
                      | O => Orchestrator.Err "Read timeout (503)"
                      | _ => Orchestrator.Ok {| Orchestrator.resp_text := "hi";
                                                Orchestrator.resp_call := None |}
                      end) "deploy my app") 2 1 BrokerExamples.s_vertex) =
  Orchestrator.Ok {| Orchestrator.resp_text := "hi"; Orchestrator.resp_call := None |}.
Proof.
  destruct (retry_recovers_after_network_errors
    (fun n => match n with
              | O => Orchestrator.Err "Read timeout (503)"
              | _ => Orchestrator.Ok {| Orchestrator.resp_text := "hi";
                                        Orchestrator.resp_call := None |}
              end) "deploy my app" BrokerExamples.s_vertex
    {| Orchestrator.chat_ep := Orchestrator.VertexAI; Orchestrator.history := [] |}
    2 1 1 {| Orchestrator.resp_text := "hi"; Orchestrator.resp_call := None |}
    ltac:(reflexivity) ltac:(lia)
    ltac:(intros i Hi; destruct i as [|i]; [eexists; split; [reflexivity|vm_compute; reflexivity]|lia])
    ltac:(reflexivity)) as [new [_ [Hfst _]]].
  exact Hfst.
Defined.


Lemma env_file_round_trip_witness :
  AnalyzerIO.file_vars
    (AnalyzerIO.Text (Py.join Orchestrator.nl
       ["PORT=8080"; "DATABASE_URL=postgres://u:p@db/app?sslmode=require"])) =
    ["PORT"; "DATABASE_URL"].
Proof.
  exact (proj1 (env_file_round_trip
    [("PORT", "8080"); ("DATABASE_URL", "postgres://u:p@db/app?sslmode=require")]
    ltac:(repeat constructor; first [discriminate | vm_compute; reflexivity]))).
Defined.

Lemma scan_excluded_root_lists_nothing_witness :
  Analyzer.files (Analyzer._scan_directory ["/"; "home"; "build"; "app"]
                    [Analyzer.EFile "main.py"; Analyzer.EFile "requirements.txt"] 3) = [].
Proof.
  refine (proj1 (scan_excluded_root_lists_nothing ["/"; "home"; "build"; "app"]
    [Analyzer.EFile "main.py"; Analyzer.EFile "requirements.txt"] 3 _)).
  exists "build". split; simpl; repeat (first [left; reflexivity | right]).
Defined.

Lemma scan_config_files_are_files_witness :
  In "requirements.txt"
    (Analyzer.files (Analyzer._scan_directory ["/"; "tmp"; "repo"]
       [Analyzer.EFile "requirements.txt"; Analyzer.EFile "app.py"] 3)).
Proof.
  exact (scan_config_files_are_files ["/"; "tmp"; "repo"]
    [Analyzer.EFile "requirements.txt"; Analyzer.EFile "app.py"] 3 "requirements.txt"
    ltac:(vm_compute; left; reflexivity)).
Defined.

End ExtraInstances.
